(** * pyprland plugins [hdrop] and [fcitx5_switcher]: embedding and properties

    The two plugins talk to a window-manager backend: they read the client
    list, read the active workspace and send textual commands.  A plugin
    method is embedded as a program of the interaction type [Prog]; [run]
    executes a program against a [World], an arbitrary deterministic backend
    that answers every query from the history of the interaction so far.
    Transport failures ([BackendError]) and logging are not modelled. *)

From Stdlib Require Import ZArith String Ascii List Bool Lia DecimalString.
From stdpp Require Import gmap strings.
Import ListNotations.

Local Open Scope string_scope.
Local Open Scope list_scope.

(** ** Python strings

    A [str] is a Rocq [string]; a character is read as the code point of the
    same number (0..255). *)
Module PyStr.

(** [str.isspace] on one character, for the code points below 256. *)
Definition isspace (c : ascii) : bool :=
  let n := nat_of_ascii c in
  (((9 <=? n) && (n <=? 13)) || ((28 <=? n) && (n <=? 32))
   || (n =? 133) || (n =? 160))%nat.

Definition is_empty (s : string) : bool :=
  match s with EmptyString => true | String _ _ => false end.

Fixpoint lstrip (s : string) : string :=
  match s with
  | EmptyString => EmptyString
  | String c r => if isspace c then lstrip r else s
  end.

Fixpoint rstrip (s : string) : string :=
  match s with
  | EmptyString => EmptyString
  | String c r =>
      let r' := rstrip r in
      if is_empty r' && isspace c then EmptyString else String c r'
  end.

(** [s.strip()] *)
Definition strip (s : string) : string := rstrip (lstrip s).

(** The longest prefix without whitespace, and what follows it. *)
Fixpoint span_token (s : string) : string * string :=
  match s with
  | EmptyString => (EmptyString, EmptyString)
  | String c r =>
      if isspace c then (EmptyString, s)
      else let '(tok, rest) := span_token r in (String c tok, rest)
  end.

(** [s.split(None, 1)]: the first whitespace-delimited token, then the
    remainder from its first non-space character to the end of [s]. *)
Definition split_none_1 (s : string) : list string :=
  let s1 := lstrip s in
  if is_empty s1 then []
  else
    let '(tok, rest) := span_token s1 in
    let rest' := lstrip rest in
    if is_empty rest' then [tok] else [tok; rest'].

(** [str(n)] for an [int]. *)
Definition of_int (z : Z) : string := NilZero.string_of_int (Z.to_int z).

(** [f"{v}"] for a value of type [str | None] and of type [int | None]. *)
Definition fmt_str (v : option string) : string :=
  match v with Some s => s | None => "None" end.

Definition fmt_int (v : option Z) : string :=
  match v with Some z => of_int z | None => "None" end.

(** A string that is empty or made of whitespace only: no token in it. *)
Definition blank (s : string) : bool := is_empty (lstrip s).

End PyStr.

(** ** Backend data *)

(** A workspace as the backend reports it (["id"], ["name"]). *)
Record WorkspaceInfo := mkWorkspace { ws_id : Z; ws_name : string }.

(** One entry of the client list (["address"], ["class"], ["title"],
    ["workspace"], ["floating"]). *)
Record Client := mkClient {
  c_address : string;
  c_class : string;
  c_title : string;
  c_workspace : WorkspaceInfo;
  c_floating : bool
}.

(** What a plugin does to the backend, and, last, the entry into
    [_handle_window] with its [skip] flag: a mark without effect on the
    backend, kept to count decision passes. *)
Inductive Event :=
| EvGetClients
| EvExecute (cmd : string)
| EvExecuteJson (query : string)
| EvSleep (ms : N)
| EvEnter (skip : bool).

(** Programs over the backend interface.  [ExecuteJson] is only ever used
    with the query ["activeworkspace"], whose answer is a workspace.
    [OutOfFuel] is the recursion bound of a fuelled definition running out. *)
Inductive Prog (A : Type) : Type :=
| Ret (a : A)
| GetClients (k : list Client -> Prog A)
| Execute (cmd : string) (k : Prog A)
| ExecuteJson (query : string) (k : WorkspaceInfo -> Prog A)
| Sleep (ms : N) (k : Prog A)
| Enter (skip : bool) (k : Prog A)
| OutOfFuel.

Arguments Ret {A} a.
Arguments GetClients {A} k.
Arguments Execute {A} cmd k.
Arguments ExecuteJson {A} query k.
Arguments Sleep {A} ms k.
Arguments Enter {A} skip k.
Arguments OutOfFuel {A}.

Fixpoint bind {A B : Type} (p : Prog A) (f : A -> Prog B) : Prog B :=
  match p with
  | Ret a => f a
  | GetClients k => GetClients (fun cs => bind (k cs) f)
  | Execute cmd k => Execute cmd (bind k f)
  | ExecuteJson q k => ExecuteJson q (fun w => bind (k w) f)
  | Sleep ms k => Sleep ms (bind k f)
  | Enter s k => Enter s (bind k f)
  | OutOfFuel => OutOfFuel
  end.

Notation "x <- p ;; q" := (bind p (fun x => q))
  (at level 100, p at next level, right associativity).
Notation "p ;; q" := (bind p (fun _ => q))
  (at level 100, right associativity).

(** [await self.get_clients()] *)
Definition get_clients : Prog (list Client) := GetClients Ret.
(** [await self.backend.execute(cmd)]; the acknowledgement is dropped. *)
Definition execute (cmd : string) : Prog unit := Execute cmd (Ret tt).
(** [await self.backend.execute_json(query)] *)
Definition execute_json (query : string) : Prog WorkspaceInfo :=
  ExecuteJson query Ret.
(** [await asyncio.sleep(ms / 1000)] *)
Definition sleep (ms : N) : Prog unit := Sleep ms (Ret tt).

(** [for x in xs: body(x)] *)
Fixpoint for_each {A : Type} (xs : list A) (body : A -> Prog unit) : Prog unit :=
  match xs with
  | [] => Ret tt
  | x :: xs' => body x ;; for_each xs' body
  end.

(** ** Running a program against a backend

    The backend answers a query from everything that happened before it, so
    it may change the window list at any time, on its own or in reaction to
    a command. *)
Record World := mkWorld {
  clients_at : list Event -> list Client;
  activeworkspace_at : list Event -> WorkspaceInfo
}.

(** [run w p h]: the result of [p] started after history [h] ([None] when
    the fuel ran out) and the events [p] adds, oldest first. *)
Fixpoint run {A : Type} (w : World) (p : Prog A) (h : list Event)
  : option A * list Event :=
  match p with
  | Ret a => (Some a, [])
  | GetClients k =>
      let '(r, tr) := run w (k (clients_at w h)) (h ++ [EvGetClients]) in
      (r, EvGetClients :: tr)
  | Execute cmd k =>
      let '(r, tr) := run w k (h ++ [EvExecute cmd]) in
      (r, EvExecute cmd :: tr)
  | ExecuteJson q k =>
      let '(r, tr) := run w (k (activeworkspace_at w h)) (h ++ [EvExecuteJson q]) in
      (r, EvExecuteJson q :: tr)
  | Sleep ms k =>
      let '(r, tr) := run w k (h ++ [EvSleep ms]) in
      (r, EvSleep ms :: tr)
  | Enter s k =>
      let '(r, tr) := run w k (h ++ [EvEnter s]) in
      (r, EvEnter s :: tr)
  | OutOfFuel => (None, [])
  end.

(** The commands sent with [backend.execute], oldest first. *)
Fixpoint commands (tr : list Event) : list string :=
  match tr with
  | [] => []
  | EvExecute cmd :: tr' => cmd :: commands tr'
  | _ :: tr' => commands tr'
  end.

(** How often the client list was read. *)
Fixpoint client_queries (tr : list Event) : nat :=
  match tr with
  | [] => 0
  | EvGetClients :: tr' => S (client_queries tr')
  | _ :: tr' => client_queries tr'
  end.

(** How often [_handle_window] was entered. *)
Fixpoint passes (tr : list Event) : nat :=
  match tr with
  | [] => 0
  | EvEnter _ :: tr' => S (passes tr')
  | _ :: tr' => passes tr'
  end.

(** The [skip] flags [_handle_window] was entered with, oldest first. *)
Fixpoint entries (tr : list Event) : list bool :=
  match tr with
  | [] => []
  | EvEnter s :: tr' => s :: entries tr'
  | _ :: tr' => entries tr'
  end.

(** The events of each decision pass: the trace cut before every entry into
    [_handle_window] (the first piece is what precedes the first entry). *)
Fixpoint split_passes (tr : list Event) : list (list Event) :=
  match tr with
  | [] => [[]]
  | e :: tr' =>
      match split_passes tr' with
      | [] => [[e]]
      | seg :: segs =>
          match e with
          | EvEnter _ => [] :: (e :: seg) :: segs
          | _ => (e :: seg) :: segs
          end
      end
  end.

(** An [exec <command>] command. *)
Definition is_exec (cmd : string) : bool := String.prefix "exec " cmd.

Definition count_exec (tr : list Event) : nat :=
  length (List.filter is_exec (commands tr)).

(** ** hdrop *)
Module Hdrop.

Record HdropOptions := mkOptions {
  command : option string;
  focus : bool;
  floating : bool;
  height : option Z;
  width : option Z;
  center : bool;
  skip : bool;
  launch_on_missing : bool
}.

Definition is_some {A : Type} (o : option A) : bool :=
  match o with Some _ => true | None => false end.

Definition _is_window_exists (class_name : string) : Prog bool :=
  clients <- get_clients ;;
  Ret (existsb (fun c => String.eqb (c_class c) class_name) clients).

Definition _is_window_in_hdrop (class_name : string) : Prog bool :=
  clients <- get_clients ;;
  Ret (existsb (fun c => String.eqb (c_class c) class_name
                         && String.eqb (ws_name (c_workspace c)) "special:hdrop")
               clients).

Definition _move_window_to_hdrop (class_name : string) : Prog unit :=
  execute ("movetoworkspacesilent special:hdrop,class:" +:+ class_name).

Definition _move_window_to_active_workspace (class_name : string) : Prog unit :=
  workspace <- execute_json "activeworkspace" ;;
  let workspace_id := ws_id workspace in
  execute ("movetoworkspace " +:+ PyStr.of_int workspace_id +:+ ",class:" +:+ class_name).

Definition _configure_floating_window (class_name : string)
    (height width : option Z) (center_flag : bool) : Prog unit :=
  clients <- get_clients ;;
  let target_clients :=
    List.filter (fun c => String.eqb (c_class c) class_name
                          && negb (String.eqb (ws_name (c_workspace c)) "special:hdrop"))
                clients in
  (match target_clients with
   | _ :: _ =>
       for_each target_clients (fun client =>
         if negb (c_floating client)
         then execute ("togglefloating address:" +:+ c_address client)
         else Ret tt)
   | [] => execute ("togglefloating class:" +:+ class_name)
   end) ;;
  (if is_some height && is_some width
   then execute ("resizewindowpixel exact " +:+ PyStr.fmt_int width +:+ " "
                 +:+ PyStr.fmt_int height +:+ ",class:" +:+ class_name)
   else Ret tt) ;;
  (if center_flag
   then execute ("centerwindow class:" +:+ class_name)
   else Ret tt).

(** The settle delay of the launch path, [asyncio.sleep(0.5)], in
    milliseconds. *)
Definition settle_delay_ms : N := 500.

(** [fuel] bounds the depth of the recursion; at depth 0 the program is
    [OutOfFuel].  The guard of the launch path is the source's
    short-circuit conjunction: the client list is read for it only when
    [skip] is false and a command is set. *)
Fixpoint _handle_window (fuel : nat) (class_name : string) (opts : HdropOptions)
  : Prog unit :=
  match fuel with
  | O => OutOfFuel
  | S fuel' =>
      Enter (skip opts) (
      let command := command opts in
      let focus_flag := focus opts in
      let floating_flag := floating opts in
      let height := height opts in
      let width := width opts in
      let center_flag := center opts in
      let skip_flag := skip opts in
      let launch_on_missing := launch_on_missing opts in
      launch <- (if negb skip_flag && is_some command
                 then (found <- _is_window_exists class_name ;;
                       Ret (negb found && launch_on_missing))
                 else Ret false) ;;
      if (launch : bool) then
        execute ("exec " +:+ PyStr.fmt_str command) ;;
        sleep settle_delay_ms ;;
        let new_opts := {|
          command := command;
          focus := focus_flag;
          floating := floating_flag;
          height := height;
          width := width;
          center := center_flag;
          skip := true;
          launch_on_missing := Hdrop.launch_on_missing opts
        |} in
        _handle_window fuel' class_name new_opts
      else
        found <- _is_window_exists class_name ;;
        if (found : bool) then
          in_hdrop <- _is_window_in_hdrop class_name ;;
          if (in_hdrop : bool) then
            _move_window_to_active_workspace class_name ;;
            if floating_flag
            then _configure_floating_window class_name height width center_flag
            else Ret tt
          else if focus_flag then
            execute ("focuswindow class:" +:+ class_name)
          else
            _move_window_to_hdrop class_name
        else Ret tt)
  end.


(** An entry of [hdrop.apps]: the keys the plugin reads, each optional,
    with the types the plugin casts them to, and the names of the other
    keys the entry holds.  The plugin never reads those, but they count for
    the emptiness of the dict. *)
Record AppConf := mkAppConf {
  conf_class : option string;
  conf_command : option string;
  conf_focus : option bool;
  conf_floating : option bool;
  conf_center : option bool;
  conf_height : option Z;
  conf_width : option Z;
  conf_launch_on_missing : option bool;
  conf_other_keys : list string
}.

(** [{}] *)
Definition empty_conf : AppConf :=
  mkAppConf None None None None None None None None [].

(** [not app_conf]: the dict has no key at all. *)
Definition conf_is_empty (c : AppConf) : bool :=
  negb (is_some (conf_class c) || is_some (conf_command c)
        || is_some (conf_focus c) || is_some (conf_floating c)
        || is_some (conf_center c) || is_some (conf_height c)
        || is_some (conf_width c) || is_some (conf_launch_on_missing c)
        || negb (match conf_other_keys c with [] => true | _ :: _ => false end)).

(** [bool(app_conf.get(key, False))] for a key holding a [bool]. *)
Definition get_flag (v : option bool) : bool :=
  match v with Some b => b | None => false end.

Section EntryPoints.

(** [self.apps], and the recursion bound handed to [_handle_window]. *)
Variable apps : gmap string AppConf.
Variable fuel : nat.

Definition _get_app_config (app_name : string) : AppConf :=
  match apps !! app_name with Some c => c | None => empty_conf end.

Definition run_app (app_name : string) : Prog (option string) :=
  let app_conf := _get_app_config app_name in
  if conf_is_empty app_conf then
    Ret (Some ("Error: app '" +:+ app_name +:+ "' not configured"))
  else
    let class_name :=
      match conf_class app_conf with Some c => c | None => app_name end in
    let command := conf_command app_conf in
    let focus_flag := get_flag (conf_focus app_conf) in
    let floating_flag := get_flag (conf_floating app_conf) in
    let center_flag := get_flag (conf_center app_conf) in
    let height := conf_height app_conf in
    let width := conf_width app_conf in
    let launch_on_missing := get_flag (conf_launch_on_missing app_conf) in
    _handle_window fuel class_name {|
      command := command;
      focus := focus_flag;
      floating := floating_flag;
      height := height;
      width := width;
      center := center_flag;
      skip := false;
      launch_on_missing := launch_on_missing
    |} ;;
    Ret None.

(** Under its guard the split list has a first element; the default of
    [hd] is never taken ([split_none_1_strip_nonempty]). *)
Definition run_hdrop (args : string) : Prog (option string) :=
  let app_name :=
    if negb (PyStr.is_empty args) && negb (PyStr.is_empty (PyStr.strip args))
    then hd "" (PyStr.split_none_1 (PyStr.strip args))
    else "" in
  if PyStr.is_empty app_name then
    Ret (Some "Error: app name required (defined under hdrop.apps)")
  else run_app app_name.

Definition run_toggle (args : string) : Prog (option string) :=
  let parts := PyStr.split_none_1 args in
  match parts with
  | [] => Ret (Some "Error: CLASS name required")
  | class_name :: _ =>
      let app_conf := _get_app_config class_name in
      _handle_window fuel class_name {|
        command := conf_command app_conf;
        focus := get_flag (conf_focus app_conf);
        floating := get_flag (conf_floating app_conf);
        height := conf_height app_conf;
        width := conf_width app_conf;
        center := get_flag (conf_center app_conf);
        skip := false;
        launch_on_missing := get_flag (conf_launch_on_missing app_conf)
      |} ;;
      Ret None
  end.

Definition run_focus (args : string) : Prog (option string) :=
  let class_name := PyStr.strip args in
  if PyStr.is_empty class_name then
    Ret (Some "Error: CLASS name required")
  else
    in_hdrop <- _is_window_in_hdrop class_name ;;
    (if (in_hdrop : bool)
     then _move_window_to_active_workspace class_name
     else execute ("focuswindow class:" +:+ class_name)) ;;
    Ret None.

Definition run_show (args : string) : Prog (option string) :=
  let parts := PyStr.split_none_1 args in
  match parts with
  | [] => Ret (Some "Error: CLASS name required")
  | class_name :: _ =>
      let app_conf := _get_app_config class_name in
      _handle_window fuel class_name {|
        command := conf_command app_conf;
        focus := true;
        floating := get_flag (conf_floating app_conf);
        height := conf_height app_conf;
        width := conf_width app_conf;
        center := get_flag (conf_center app_conf);
        skip := false;
        launch_on_missing := get_flag (conf_launch_on_missing app_conf)
      |} ;;
      Ret None
  end.

Definition run_hide (args : string) : Prog (option string) :=
  let class_name := PyStr.strip args in
  if PyStr.is_empty class_name then
    Ret (Some "Error: CLASS name required")
  else
    found <- _is_window_exists class_name ;;
    (if (found : bool) then _move_window_to_hdrop class_name else Ret tt) ;;
    Ret None.

End EntryPoints.

End Hdrop.

(** ** fcitx5_switcher *)
Module Fcitx5.

(** What [re.search(pattern, value)] does: it finds a match, finds none,
    raises [re.error] on a malformed pattern, or raises another exception,
    named by [exc]: [OverflowError] for a repeat count too large,
    [RecursionError] for nesting too deep. *)
Inductive SearchResult := Found | NotFound | ReError | Raises (exc : string).

(** The value of an expression, or the exception that leaves it uncaught. *)
Inductive Raising (A : Type) : Type :=
| Value (a : A)
| Raise (exc : string).

Arguments Value {A} a.
Arguments Raise {A} exc.

(** The four lists read with [get_config_list]. *)
Record Config := mkConfig {
  active_classes : list string;
  active_titles : list string;
  inactive_classes : list string;
  inactive_titles : list string
}.

(** [for x in xs: body(x)], left by the first exception of the body. *)
Fixpoint for_each_raising {A : Type} (xs : list A)
    (body : A -> Prog (Raising unit)) : Prog (Raising unit) :=
  match xs with
  | [] => Ret (Value tt)
  | x :: xs' =>
      r <- body x ;;
      match r with
      | Value _ => for_each_raising xs' body
      | Raise exc => Ret (Raise exc)
      end
  end.

(** [a or b] on the outcomes of two calls; the second call is made only
    when the first returned [False]. *)
Definition or_else (a b : Raising bool) : Raising bool :=
  match a with
  | Raise exc => Raise exc
  | Value true => Value true
  | Value false => b
  end.

Section Switcher.

(** Python's regular-expression engine, pattern first. *)
Variable re_search : string -> string -> SearchResult.

(** Only [re.error] is caught; any other exception leaves the function. *)
Fixpoint matches_any (value : string) (patterns : list string) : Raising bool :=
  match patterns with
  | [] => Value false
  | p :: ps =>
      match re_search p value with
      | Found => Value true
      | NotFound => matches_any value ps
      | ReError => if String.eqb value p then Value true else matches_any value ps
      | Raises exc => Raise exc
      end
  end.

(** [should_enable] and [should_disable] for a client. *)
Definition should_enable (cfg : Config) (client : Client) : Raising bool :=
  let cls := c_class client in
  let title := c_title client in
  or_else (matches_any cls (active_classes cfg))
          (matches_any title (active_titles cfg)).

Definition should_disable (cfg : Config) (client : Client) : Raising bool :=
  let cls := c_class client in
  let title := c_title client in
  or_else (matches_any cls (inactive_classes cfg))
          (matches_any title (inactive_titles cfg)).

(** The body run for the client whose address is the event's: both tests
    are computed before the first command.  The client list gives every
    client its class and title, so the default of [client.get(key) or ""]
    is not taken for a missing key. *)
Definition switch_for (cfg : Config) (client : Client) : Prog (Raising unit) :=
  match should_enable cfg client with
  | Raise exc => Ret (Raise exc)
  | Value enable =>
      match should_disable cfg client with
      | Raise exc => Ret (Raise exc)
      | Value disable =>
          (if enable then execute "execr fcitx5-remote -o" else Ret tt) ;;
          (if disable then execute "execr fcitx5-remote -c" else Ret tt) ;;
          Ret (Value tt)
      end
  end.

Definition event_activewindowv2 (cfg : Config) (_addr : string)
  : Prog (Raising unit) :=
  let _addr := "0x" +:+ _addr in
  clients <- get_clients ;;
  for_each_raising clients (fun client =>
    if String.eqb (c_address client) _addr
    then switch_for cfg client
    else Ret (Value tt)).

End Switcher.

(** A regular-expression engine for patterns without metacharacters, where
    [re.search] is substring search and never fails. *)
Definition literal_search (p value : string) : SearchResult :=
  match String.index 0 p value with Some _ => Found | None => NotFound end.

(** The same engine with the one pattern [a{4294967296}] added, whose repeat
    count CPython's [re.search] rejects with [OverflowError], not
    [re.error]. *)
Definition overflow_search (p value : string) : SearchResult :=
  if String.eqb p "a{4294967296}" then Raises "OverflowError"
  else literal_search p value.

End Fcitx5.

(** ** Vocabulary of the statements *)

Import Hdrop.

(** [exists(class)] and [inScratchpad(class)] evaluated on one client list,
    and the clients the geometry normalizer works on. *)
Definition exists_in (class_name : string) (cs : list Client) : bool :=
  existsb (fun c => String.eqb (c_class c) class_name) cs.

Definition in_scratchpad (class_name : string) (cs : list Client) : bool :=
  existsb (fun c => String.eqb (c_class c) class_name
                    && String.eqb (ws_name (c_workspace c)) "special:hdrop") cs.

Definition target_clients (class_name : string) (cs : list Client) : list Client :=
  List.filter (fun c => String.eqb (c_class c) class_name
                        && negb (String.eqb (ws_name (c_workspace c)) "special:hdrop")) cs.

(** After history [h] the client list reads [cs] until the plugin sends its
    next command: the window set does not change on its own meanwhile. *)
Definition steady (w : World) (h : list Event) (cs : list Client) : Prop :=
  forall h', commands h' = [] -> clients_at w (h ++ h') = cs.

(** The commands of the geometry normalizer on the client list [cs]. *)
Definition toggle_commands (class_name : string) (cs : list Client) : list string :=
  match target_clients class_name cs with
  | [] => ["togglefloating class:" +:+ class_name]
  | ts => map (fun c => "togglefloating address:" +:+ c_address c)
              (List.filter (fun c => negb (c_floating c)) ts)
  end.

Definition resize_commands (class_name : string) (height width : option Z)
  : list string :=
  if is_some height && is_some width
  then ["resizewindowpixel exact " +:+ PyStr.fmt_int width +:+ " "
        +:+ PyStr.fmt_int height +:+ ",class:" +:+ class_name]
  else [].

Definition center_commands (class_name : string) (center_flag : bool)
  : list string :=
  if center_flag then ["centerwindow class:" +:+ class_name] else [].

Definition normalizer_commands (class_name : string) (height width : option Z)
    (center_flag : bool) (cs : list Client) : list string :=
  toggle_commands class_name cs ++ resize_commands class_name height width
  ++ center_commands class_name center_flag.

(** The part of [_handle_window] below the launch branch. *)
Definition act_on_window (class_name : string) (opts : HdropOptions) : Prog unit :=
  found <- _is_window_exists class_name ;;
  if (found : bool) then
    in_hdrop <- _is_window_in_hdrop class_name ;;
    if (in_hdrop : bool) then
      _move_window_to_active_workspace class_name ;;
      if floating opts
      then _configure_floating_window class_name (height opts) (width opts) (center opts)
      else Ret tt
    else if focus opts then
      execute ("focuswindow class:" +:+ class_name)
    else
      _move_window_to_hdrop class_name
  else Ret tt.

(** The events of [act_on_window] started after history [h]. *)
Definition act_trace (w : World) (class_name : string) (opts : HdropOptions)
    (h : list Event) : list Event :=
  EvGetClients ::
  if exists_in class_name (clients_at w h) then
    EvGetClients ::
    if in_scratchpad class_name (clients_at w (h ++ [EvGetClients])) then
      let h2 := h ++ [EvGetClients; EvGetClients] in
      let move := "movetoworkspace " +:+ PyStr.of_int (ws_id (activeworkspace_at w h2))
                  +:+ ",class:" +:+ class_name in
      let h3 := h2 ++ [EvExecuteJson "activeworkspace"; EvExecute move] in
      EvExecuteJson "activeworkspace" :: EvExecute move ::
      (if floating opts
       then EvGetClients ::
            map EvExecute (normalizer_commands class_name (height opts) (width opts)
                             (center opts) (clients_at w h3))
       else [])
    else
      [EvExecute (if focus opts
                  then "focuswindow class:" +:+ class_name
                  else "movetoworkspacesilent special:hdrop,class:" +:+ class_name)]
  else [].

(** The options of the retry: the same with [skip] set. *)
Definition retry_opts (opts : HdropOptions) : HdropOptions :=
  {| command := command opts; focus := focus opts; floating := floating opts;
     height := height opts; width := width opts; center := center opts;
     skip := true; launch_on_missing := launch_on_missing opts |}.

(** The events of a top-level [_handle_window] (with [skip] false) started
    after history [h]. *)
Definition handle_trace (w : World) (class_name : string) (opts : HdropOptions)
    (h : list Event) : list Event :=
  EvEnter false ::
  if is_some (command opts) then
    let h1 := h ++ [EvEnter false] in
    EvGetClients ::
    if negb (exists_in class_name (clients_at w h1)) && launch_on_missing opts then
      let launch := "exec " +:+ PyStr.fmt_str (command opts) in
      EvExecute launch :: EvSleep settle_delay_ms :: EvEnter true ::
      act_trace w class_name (retry_opts opts)
        (h1 ++ [EvGetClients; EvExecute launch; EvSleep settle_delay_ms; EvEnter true])
    else act_trace w class_name opts (h1 ++ [EvGetClients])
  else act_trace w class_name opts (h ++ [EvEnter false]).

(** Whether the guard of the launch branch reads the client list, and the
    events of a pass up to the outcome of that guard. *)
Definition guard_reads (opts : HdropOptions) : bool :=
  negb (skip opts) && is_some (command opts).

Definition pass_prefix (opts : HdropOptions) : list Event :=
  EvEnter (skip opts) :: (if guard_reads opts then [EvGetClients] else []).

(** Whether a pass started after history [h] takes the launch branch. *)
Definition launches (w : World) (class_name : string) (opts : HdropOptions)
    (h : list Event) : bool :=
  guard_reads opts
  && negb (exists_in class_name (clients_at w (h ++ [EvEnter (skip opts)])))
  && launch_on_missing opts.

(** The segments of the trace that are decision passes. *)
Definition pass_segments (tr : list Event) : list (list Event) :=
  tl (split_passes tr).

(** Commands by kind, told apart by their first word. *)
Definition is_toggle (cmd : string) : bool := String.prefix "togglefloating " cmd.
Definition is_resize (cmd : string) : bool := String.prefix "resizewindowpixel " cmd.
Definition is_center (cmd : string) : bool := String.prefix "centerwindow " cmd.

(** ** Backends and inputs of the examples *)

(** A backend whose window list never changes. *)
Definition static_world (cs : list Client) (active : Z) : World :=
  {| clients_at := fun _ => cs;
     activeworkspace_at := fun _ => mkWorkspace active (PyStr.of_int active) |}.

(** A backend that carries out [movetoworkspace]: once a command was sent
    the window list reads [after] instead of [before]. *)
Definition moving_world (before after : list Client) (active : Z) : World :=
  {| clients_at := fun h => match commands h with [] => before | _ => after end;
     activeworkspace_at := fun _ => mkWorkspace active (PyStr.of_int active) |}.

(** A backend whose window list is [first] at the first read and [later]
    from the second read on. *)
Definition changing_world (first later : list Client) (active : Z) : World :=
  {| clients_at := fun h => match client_queries h with 0 => first | _ => later end;
     activeworkspace_at := fun _ => mkWorkspace active (PyStr.of_int active) |}.

Definition foo_client (ws : WorkspaceInfo) (is_floating : bool) : Client :=
  {| c_address := "0x55d0"; c_class := "foo"; c_title := "foo - window";
     c_workspace := ws; c_floating := is_floating |}.

Definition scratchpad : WorkspaceInfo := mkWorkspace (-98) "special:hdrop".
Definition workspace_1 : WorkspaceInfo := mkWorkspace 1 "1".
Definition workspace_3 : WorkspaceInfo := mkWorkspace 3 "3".

(** Scenario A of the specification: [kitty], launched when missing. *)
Definition kitty_opts : HdropOptions :=
  {| command := Some "kitty"; focus := true; floating := false;
     height := None; width := None; center := false;
     skip := false; launch_on_missing := true |}.

(** Scenario B: neither focus nor floating. *)
Definition scenario_B_opts : HdropOptions :=
  {| command := None; focus := false; floating := false;
     height := None; width := None; center := false;
     skip := false; launch_on_missing := false |}.

(** Scenario C: floating, 600 by 400, centered. *)
Definition scenario_C_opts : HdropOptions :=
  {| command := None; focus := false; floating := true;
     height := Some 400%Z; width := Some 600%Z; center := true;
     skip := false; launch_on_missing := false |}.

(** The command sequence Scenario C of the specification expects, in the
    specification's words: the class-wide toggle is there only if the window
    is not already floating. *)
Definition scenario_C_expected (already_floating : bool) : list string :=
  ["movetoworkspace 3,class:foo"]
  ++ (if already_floating then [] else ["togglefloating class:foo"])
  ++ ["resizewindowpixel exact 600 400,class:foo"; "centerwindow class:foo"].

(** A window list for the normalizer: two [foo] windows in workspace 1, the
    first not floating, and a [foo] window in the scratchpad. *)
Definition mixed_clients : list Client :=
  [ {| c_address := "0xa"; c_class := "foo"; c_title := "one";
       c_workspace := workspace_1; c_floating := false |};
    {| c_address := "0xb"; c_class := "foo"; c_title := "two";
       c_workspace := workspace_1; c_floating := true |};
    {| c_address := "0xc"; c_class := "foo"; c_title := "three";
       c_workspace := scratchpad; c_floating := false |} ].

(** An [hdrop.apps] mapping with the one application [kitty]. *)
Definition kitty_apps : gmap string AppConf :=
  {[ "kitty" := {| conf_class := None; conf_command := Some "kitty";
                   conf_focus := Some true; conf_floating := None;
                   conf_center := None; conf_height := None;
                   conf_width := None; conf_launch_on_missing := Some true;
                   conf_other_keys := [] |} ]}.

(** An entry that holds nothing but a key the plugin does not read, and a
    mapping with it. *)
Definition opacity_only : AppConf :=
  {| conf_class := None; conf_command := None; conf_focus := None;
     conf_floating := None; conf_center := None; conf_height := None;
     conf_width := None; conf_launch_on_missing := None;
     conf_other_keys := ["opacity"] |}.

Definition foo_apps : gmap string AppConf := {[ "foo" := opacity_only ]}.

(** A switcher configuration where [firefox] is in both class lists, and a
    window list with a [firefox] and a [kitty] window. *)
Definition both_config : Fcitx5.Config :=
  {| Fcitx5.active_classes := ["firefox"]; Fcitx5.active_titles := [];
     Fcitx5.inactive_classes := ["fire"]; Fcitx5.inactive_titles := [] |}.

Definition firefox_client : Client :=
  {| c_address := "0x1f"; c_class := "firefox"; c_title := "Mozilla Firefox";
     c_workspace := workspace_1; c_floating := false |}.

Definition kitty_client : Client :=
  {| c_address := "0x2e"; c_class := "kitty"; c_title := "shell";
     c_workspace := workspace_1; c_floating := false |}.

(** ** Further vocabulary *)

(** More command kinds, by first word. *)
Definition is_hide (cmd : string) : bool :=
  String.prefix "movetoworkspacesilent " cmd.
Definition is_move (cmd : string) : bool := String.prefix "movetoworkspace " cmd.
Definition is_focus (cmd : string) : bool := String.prefix "focuswindow " cmd.

(** The commands of the geometry normalizer. *)
Definition is_geometry (cmd : string) : bool :=
  is_toggle cmd || is_resize cmd || is_center cmd.

(** How often the plugin slept. *)
Fixpoint sleeps (tr : list Event) : nat :=
  match tr with
  | [] => 0
  | EvSleep _ :: tr' => S (sleeps tr')
  | _ :: tr' => sleeps tr'
  end.

(** The condition of the launch branch for a call with [skip] false started
    after history [h]: a command is set, the client list read for the guard
    lacks the class, and [launch_on_missing] is set. *)
Definition launch_condition (w : World) (class_name : string)
    (opts : HdropOptions) (h : list Event) : bool :=
  is_some (command opts)
  && negb (exists_in class_name (clients_at w (h ++ [EvEnter false])))
  && launch_on_missing opts.

(** The events of a launch, up to the settle delay. *)
Definition launch_events (opts : HdropOptions) : list Event :=
  [EvEnter false; EvGetClients;
   EvExecute ("exec " +:+ PyStr.fmt_str (command opts));
   EvSleep settle_delay_ms].

(** Shapes of argument strings: whitespace only; a token, that is not empty
    and without whitespace; what may follow a token, nothing or something
    that starts with whitespace. *)
Fixpoint all_space (s : string) : bool :=
  match s with
  | EmptyString => true
  | String c r => PyStr.isspace c && all_space r
  end.

Fixpoint no_space (s : string) : bool :=
  match s with
  | EmptyString => true
  | String c r => negb (PyStr.isspace c) && no_space r
  end.

Definition is_token (s : string) : bool := negb (PyStr.is_empty s) && no_space s.

Definition starts_blank (s : string) : bool :=
  match s with
  | EmptyString => true
  | String c _ => PyStr.isspace c
  end.

(** ** The configuration section of a plugin

    Both plugins compute in [__init__] the name of their configuration
    section from the name they are loaded under:
    [name.split(":", 1)[1] if ":" in name else name]. *)

(** [":" in name] *)
Fixpoint contains_colon (name : string) : bool :=
  match name with
  | EmptyString => false
  | String c r => Ascii.eqb c ":" || contains_colon r
  end.

(** [name.split(":", 1)]: one piece without a colon, else the pieces before
    and after the first colon. *)
Fixpoint split_colon_1 (name : string) : list string :=
  match name with
  | EmptyString => [EmptyString]
  | String c r =>
      if Ascii.eqb c ":" then [EmptyString; r]
      else match split_colon_1 r with
           | piece :: pieces => String c piece :: pieces
           | [] => [String c EmptyString]
           end
  end.

(** The value given to [self._conf_name]; index 1 is read only when the
    name has a colon, where the split has two pieces. *)
Definition _conf_name (name : string) : string :=
  if contains_colon name then nth 1 (split_colon_1 name) EmptyString else name.

(** ** Matching a window against patterns

    What the statements about the switcher mean by a match: a pattern
    matches a value when [re.search] finds it there, or when the pattern is
    malformed for [re] ([re.error]) and equal to the value. *)
Definition pattern_matches (re_search : string -> string -> Fcitx5.SearchResult)
    (value p : string) : bool :=
  match re_search p value with
  | Fcitx5.Found => true
  | Fcitx5.ReError => String.eqb value p
  | _ => false
  end.

(** Evaluating the pattern on the value raises an exception other than
    [re.error]. *)
Definition pattern_raises (re_search : string -> string -> Fcitx5.SearchResult)
    (value p : string) : bool :=
  match re_search p value with
  | Fcitx5.Raises _ => true
  | _ => false
  end.

Definition matches_some (re_search : string -> string -> Fcitx5.SearchResult)
    (value : string) (patterns : list string) : bool :=
  existsb (pattern_matches re_search value) patterns.

(** The window matches an active pattern, an inactive pattern. *)
Definition matches_active (re_search : string -> string -> Fcitx5.SearchResult)
    (cfg : Fcitx5.Config) (client : Client) : bool :=
  matches_some re_search (c_class client) (Fcitx5.active_classes cfg)
  || matches_some re_search (c_title client) (Fcitx5.active_titles cfg).

Definition matches_inactive (re_search : string -> string -> Fcitx5.SearchResult)
    (cfg : Fcitx5.Config) (client : Client) : bool :=
  matches_some re_search (c_class client) (Fcitx5.inactive_classes cfg)
  || matches_some re_search (c_title client) (Fcitx5.inactive_titles cfg).

(** No pattern of the four lists raises on the class or title it is tried
    on. *)
Definition no_pattern_raises (re_search : string -> string -> Fcitx5.SearchResult)
    (cfg : Fcitx5.Config) (client : Client) : bool :=
  forallb (fun p => negb (pattern_raises re_search (c_class client) p))
          (Fcitx5.active_classes cfg)
  && forallb (fun p => negb (pattern_raises re_search (c_title client) p))
             (Fcitx5.active_titles cfg)
  && forallb (fun p => negb (pattern_raises re_search (c_class client) p))
             (Fcitx5.inactive_classes cfg)
  && forallb (fun p => negb (pattern_raises re_search (c_title client) p))
             (Fcitx5.inactive_titles cfg).

(** The outcome and the commands of [switch_for]. *)
Definition switch_outcome (re_search : string -> string -> Fcitx5.SearchResult)
    (cfg : Fcitx5.Config) (client : Client) : Fcitx5.Raising unit * list string :=
  match Fcitx5.should_enable re_search cfg client with
  | Fcitx5.Raise exc => (Fcitx5.Raise exc, [])
  | Fcitx5.Value enable =>
      match Fcitx5.should_disable re_search cfg client with
      | Fcitx5.Raise exc => (Fcitx5.Raise exc, [])
      | Fcitx5.Value disable =>
          (Fcitx5.Value tt,
           (if enable then ["execr fcitx5-remote -o"] else [])
           ++ (if disable then ["execr fcitx5-remote -c"] else []))
      end
  end.

(** A configuration whose first active class pattern has a repeat count too
    large, ahead of [firefox]; [fire] is an inactive class pattern. *)
Definition overflow_config : Fcitx5.Config :=
  {| Fcitx5.active_classes := ["a{4294967296}"; "firefox"];
     Fcitx5.active_titles := [];
     Fcitx5.inactive_classes := ["fire"]; Fcitx5.inactive_titles := [] |}.

(** * Properties *)

(** ** Running sequenced programs *)

Lemma run_bind {A B : Type} (w : World) (p : Prog A) (f : A -> Prog B) :
  forall h,
    run w (bind p f) h =
    match run w p h with
    | (Some a, t1) => let '(r, t2) := run w (f a) (h ++ t1) in (r, t1 ++ t2)
    | (None, t1) => (None, t1)
    end.
Proof.
  induction p as [a | k IH | cmd k IH | q k IH | ms k IH | s k IH | ];
    intros h; simpl.
  - rewrite app_nil_r. destruct (run w (f a) h); reflexivity.
  - rewrite IH. destruct (run w (k _) _) as [[a|] t1]; [|reflexivity].
    rewrite <- app_assoc. simpl. destruct (run w (f a) _). reflexivity.
  - rewrite IH. destruct (run w k _) as [[a|] t1]; [|reflexivity].
    rewrite <- app_assoc. simpl. destruct (run w (f a) _). reflexivity.
  - rewrite IH. destruct (run w (k _) _) as [[a|] t1]; [|reflexivity].
    rewrite <- app_assoc. simpl. destruct (run w (f a) _). reflexivity.
  - rewrite IH. destruct (run w k _) as [[a|] t1]; [|reflexivity].
    rewrite <- app_assoc. simpl. destruct (run w (f a) _). reflexivity.
  - rewrite IH. destruct (run w k _) as [[a|] t1]; [|reflexivity].
    rewrite <- app_assoc. simpl. destruct (run w (f a) _). reflexivity.
  - reflexivity.
Qed.

Lemma commands_app (t1 t2 : list Event) :
  commands (t1 ++ t2) = commands t1 ++ commands t2.
Proof.
  induction t1 as [|e t1 IH]; [reflexivity|].
  destruct e; simpl; rewrite IH; reflexivity.
Qed.

Lemma commands_map_execute (cmds : list string) :
  commands (map EvExecute cmds) = cmds.
Proof. induction cmds as [|c cmds IH]; simpl; congruence. Qed.

Lemma client_queries_map_execute (cmds : list string) :
  client_queries (map EvExecute cmds) = 0.
Proof. induction cmds as [|c cmds IH]; simpl; congruence. Qed.

Lemma passes_map_execute (cmds : list string) :
  passes (map EvExecute cmds) = 0.
Proof. induction cmds as [|c cmds IH]; simpl; congruence. Qed.

(** A loop whose body at most sends one command sends the commands of the
    elements that send one, in order, whatever the backend does. *)
Lemma run_for_each_execute {A : Type} (w : World) (sends : A -> bool)
    (cmd : A -> string) (xs : list A) :
  forall h,
    run w (for_each xs (fun x => if sends x then execute (cmd x) else Ret tt)) h
    = (Some tt, map EvExecute (map cmd (List.filter sends xs))).
Proof.
  induction xs as [|x xs IH]; intros h; [reflexivity|].
  simpl for_each. rewrite run_bind.
  destruct (sends x) eqn:Hs; simpl; rewrite Hs; simpl; rewrite IH; reflexivity.
Qed.

(** ** hdrop: the helpers *)

Lemma run_is_window_exists (w : World) (class_name : string) (h : list Event) :
  run w (_is_window_exists class_name) h
  = (Some (exists_in class_name (clients_at w h)), [EvGetClients]).
Proof. reflexivity. Qed.

Lemma run_is_window_in_hdrop (w : World) (class_name : string) (h : list Event) :
  run w (_is_window_in_hdrop class_name) h
  = (Some (in_scratchpad class_name (clients_at w h)), [EvGetClients]).
Proof. reflexivity. Qed.

Lemma run_configure_floating_window (w : World) (class_name : string)
    (hh ww : option Z) (cf : bool) (h : list Event) :
  run w (_configure_floating_window class_name hh ww cf) h
  = (Some tt,
     EvGetClients ::
     map EvExecute (normalizer_commands class_name hh ww cf (clients_at w h))).
Proof.
  unfold _configure_floating_window, get_clients. simpl bind. cbv beta.
  simpl run. fold (target_clients class_name (clients_at w h)).
  rewrite run_bind.
  assert (Htog : forall h',
    run w (match target_clients class_name (clients_at w h) with
           | [] => execute ("togglefloating class:" +:+ class_name)
           | _ :: _ =>
               for_each (target_clients class_name (clients_at w h))
                 (fun client => if negb (c_floating client)
                                then execute ("togglefloating address:" +:+ c_address client)
                                else Ret tt)
           end) h'
    = (Some tt, map EvExecute (toggle_commands class_name (clients_at w h)))).
  { intros h'. unfold toggle_commands.
    destruct (target_clients class_name (clients_at w h)) as [|c ts] eqn:Ht.
    - reflexivity.
    - apply (run_for_each_execute w (fun c => negb (c_floating c))
               (fun c => "togglefloating address:" +:+ c_address c)). }
  rewrite Htog. rewrite run_bind.
  unfold normalizer_commands, resize_commands, center_commands.
  rewrite !map_app.
  destruct (is_some hh && is_some ww); destruct cf; reflexivity.
Qed.

Lemma run_move_window_to_active_workspace (w : World) (class_name : string)
    (h : list Event) :
  run w (_move_window_to_active_workspace class_name) h
  = (Some tt,
     [EvExecuteJson "activeworkspace";
      EvExecute ("movetoworkspace " +:+ PyStr.of_int (ws_id (activeworkspace_at w h))
                 +:+ ",class:" +:+ class_name)]).
Proof. reflexivity. Qed.

Lemma run_act_on_window (w : World) (class_name : string) (opts : HdropOptions)
    (h : list Event) :
  run w (act_on_window class_name opts) h = (Some tt, act_trace w class_name opts h).
Proof.
  unfold act_on_window, act_trace.
  rewrite run_bind, run_is_window_exists.
  destruct (exists_in class_name (clients_at w h)); [|reflexivity].
  rewrite run_bind, run_is_window_in_hdrop.
  destruct (in_scratchpad class_name (clients_at w (h ++ [EvGetClients]))).
  - rewrite run_bind, run_move_window_to_active_workspace.
    rewrite <- !app_assoc. simpl app.
    destruct (floating opts).
    + rewrite run_configure_floating_window. reflexivity.
    + reflexivity.
  - destruct (focus opts); reflexivity.
Qed.

Lemma act_trace_retry_opts (w : World) (class_name : string) (opts : HdropOptions)
    (h : list Event) :
  act_trace w class_name (retry_opts opts) h = act_trace w class_name opts h.
Proof. reflexivity. Qed.

(** One unfolding of the recursion. *)
Lemma handle_window_unfold (fuel : nat) (class_name : string) (opts : HdropOptions) :
  _handle_window (S fuel) class_name opts
  = Enter (skip opts)
      (launch <- (if negb (skip opts) && is_some (command opts)
                  then (found <- _is_window_exists class_name ;;
                        Ret (negb found && launch_on_missing opts))
                  else Ret false) ;;
       if (launch : bool) then
         execute ("exec " +:+ PyStr.fmt_str (command opts)) ;;
         sleep settle_delay_ms ;;
         _handle_window fuel class_name (retry_opts opts)
       else act_on_window class_name opts).
Proof. reflexivity. Qed.

(** A pass entered with [skip] set never takes the launch branch. *)
Lemma run_handle_window_skip (w : World) (fuel : nat) (class_name : string)
    (opts : HdropOptions) (h : list Event) :
  skip opts = true ->
  run w (_handle_window (S fuel) class_name opts) h
  = (Some tt, EvEnter true :: act_trace w class_name opts (h ++ [EvEnter true])).
Proof.
  intros Hs. rewrite handle_window_unfold, Hs. cbn [negb andb].
  cbn [run bind]. rewrite run_act_on_window. reflexivity.
Qed.

Lemma run_handle_window (w : World) (fuel : nat) (class_name : string)
    (opts : HdropOptions) (h : list Event) :
  skip opts = false ->
  run w (_handle_window (S (S fuel)) class_name opts) h
  = (Some tt, handle_trace w class_name opts h).
Proof.
  intros Hs. rewrite handle_window_unfold, Hs. unfold handle_trace.
  cbn [negb andb]. destruct (is_some (command opts)).
  - cbn [run]. rewrite run_bind.
    rewrite run_bind, run_is_window_exists. cbn [run app].
    fold (exists_in class_name (clients_at w (h ++ [EvEnter false]))).
    destruct (negb (exists_in class_name (clients_at w (h ++ [EvEnter false])))
              && launch_on_missing opts).
    + cbn [bind execute sleep run].
      rewrite run_handle_window_skip by reflexivity.
      rewrite act_trace_retry_opts.
      rewrite <- !app_assoc. reflexivity.
    + rewrite run_act_on_window. rewrite <- !app_assoc. reflexivity.
  - cbn [run bind]. rewrite run_act_on_window. reflexivity.
Qed.

(** ** hdrop: the commands of a decision *)

(** The commands of [act_on_window], read off its events. *)
Lemma commands_act_trace (w : World) (class_name : string) (opts : HdropOptions)
    (h : list Event) :
  commands (act_trace w class_name opts h)
  = if exists_in class_name (clients_at w h) then
      if in_scratchpad class_name (clients_at w (h ++ [EvGetClients])) then
        let h2 := h ++ [EvGetClients; EvGetClients] in
        let move := "movetoworkspace " +:+ PyStr.of_int (ws_id (activeworkspace_at w h2))
                    +:+ ",class:" +:+ class_name in
        move ::
        (if floating opts
         then normalizer_commands class_name (height opts) (width opts) (center opts)
                (clients_at w (h2 ++ [EvExecuteJson "activeworkspace"; EvExecute move]))
         else [])
      else [if focus opts
            then "focuswindow class:" +:+ class_name
            else "movetoworkspacesilent special:hdrop,class:" +:+ class_name]
    else [].
Proof.
  unfold act_trace.
  destruct (exists_in class_name (clients_at w h)); [|reflexivity].
  destruct (in_scratchpad class_name (clients_at w (h ++ [EvGetClients])));
    [|reflexivity].
  cbn [commands]. cbv zeta. f_equal.
  destruct (floating opts); [|reflexivity].
  cbn [commands]. apply commands_map_execute.
Qed.

Lemma toggle_commands_are_toggles (class_name : string) (cs : list Client) :
  Forall (fun c => is_toggle c = true) (toggle_commands class_name cs).
Proof.
  unfold toggle_commands.
  destruct (target_clients class_name cs) as [|c ts].
  - constructor; [reflexivity | constructor].
  - apply Forall_map, Forall_forall. intros x _. reflexivity.
Qed.

Lemma toggle_not_exec (cmd : string) : is_toggle cmd = true -> is_exec cmd = false.
Proof.
  destruct cmd as [|a cmd]; [discriminate|].
  unfold is_toggle, is_exec. cbn [String.prefix].
  destruct (ascii_dec "t"%char a) as [<-|]; [reflexivity | discriminate].
Qed.

Lemma normalizer_commands_not_exec (class_name : string) (hh ww : option Z)
    (cf : bool) (cs : list Client) :
  List.filter is_exec (normalizer_commands class_name hh ww cf cs) = [].
Proof.
  unfold normalizer_commands. rewrite !List.filter_app.
  assert (Ht : List.filter is_exec (toggle_commands class_name cs) = []).
  { pose proof (toggle_commands_are_toggles class_name cs) as HF.
    induction HF as [|c l Hc _ IH]; [reflexivity|].
    simpl. rewrite (toggle_not_exec c Hc). exact IH. }
  rewrite Ht. unfold resize_commands, center_commands.
  destruct (is_some hh && is_some ww); destruct cf; reflexivity.
Qed.

Lemma count_exec_act_trace (w : World) (class_name : string) (opts : HdropOptions)
    (h : list Event) :
  count_exec (act_trace w class_name opts h) = 0.
Proof.
  unfold count_exec. rewrite commands_act_trace.
  destruct (exists_in _ _); [|reflexivity].
  destruct (in_scratchpad _ _).
  - cbv zeta. cbn [List.filter]. 
    replace (is_exec _) with false by reflexivity.
    destruct (floating opts); [|reflexivity].
    rewrite normalizer_commands_not_exec. reflexivity.
  - destruct (focus opts); reflexivity.
Qed.

Lemma passes_act_trace (w : World) (class_name : string) (opts : HdropOptions)
    (h : list Event) :
  passes (act_trace w class_name opts h) = 0.
Proof.
  unfold act_trace.
  destruct (exists_in _ _); [|reflexivity].
  destruct (in_scratchpad _ _); [|reflexivity].
  cbn [passes]. destruct (floating opts); [|reflexivity].
  cbn [passes]. apply passes_map_execute.
Qed.

Lemma count_exec_cons (e : Event) (tr : list Event) :
  count_exec (e :: tr)
  = match e with
    | EvExecute cmd => if is_exec cmd then S (count_exec tr) else count_exec tr
    | _ => count_exec tr
    end.
Proof.
  unfold count_exec. destruct e; try reflexivity.
  simpl. destruct (is_exec cmd); reflexivity.
Qed.

Lemma is_exec_launch (c : string) : is_exec ("exec " +:+ c) = true.
Proof. destruct c; reflexivity. Qed.

Lemma entries_map_execute (cmds : list string) :
  entries (map EvExecute cmds) = [].
Proof. induction cmds as [|c cmds IH]; simpl; congruence. Qed.

Lemma entries_act_trace (w : World) (class_name : string) (opts : HdropOptions)
    (h : list Event) :
  entries (act_trace w class_name opts h) = [].
Proof.
  unfold act_trace.
  destruct (exists_in _ _); [|reflexivity].
  destruct (in_scratchpad _ _); [|reflexivity].
  cbn [entries]. destruct (floating opts); [|reflexivity].
  cbn [entries]. apply entries_map_execute.
Qed.

(** C1.  A top-level call of [_handle_window] (with [skip] false) returns for
    every recursion bound of at least 2, against every backend -- also one
    where the launched process never shows a window.  It sends at most one
    [exec <command>] command and enters the decision at most twice: once
    with [skip] false and, after a launch, once more with [skip] true. *)
Theorem handle_window_launch_bounded (w : World) (h : list Event) (fuel : nat)
    (class_name : string) (opts : HdropOptions) :
  skip opts = false ->
  2 <= fuel ->
  exists tr,
    run w (_handle_window fuel class_name opts) h = (Some tt, tr)
    /\ count_exec tr <= 1
    /\ passes tr <= 2
    /\ (entries tr = [false] \/ entries tr = [false; true]).
Proof.
  intros Hs Hf.
  destruct fuel as [|[|fuel]]; [lia | lia |].
  exists (handle_trace w class_name opts h).
  split; [apply run_handle_window; exact Hs|].
  unfold handle_trace.
  destruct (is_some (command opts)).
  - cbv zeta.
    destruct (negb (exists_in class_name (clients_at w (h ++ [EvEnter false])))
              && launch_on_missing opts).
    + rewrite !count_exec_cons. cbn [passes entries].
      rewrite is_exec_launch.
      rewrite count_exec_act_trace, passes_act_trace, entries_act_trace.
      split; [lia|]. split; [lia|]. right. reflexivity.
    + rewrite !count_exec_cons. cbn [passes entries].
      rewrite count_exec_act_trace, passes_act_trace, entries_act_trace.
      split; [lia|]. split; [lia|]. left. reflexivity.
  - rewrite !count_exec_cons. cbn [passes entries].
    rewrite count_exec_act_trace, passes_act_trace, entries_act_trace.
    split; [lia|]. split; [lia|]. left. reflexivity.
Qed.

(** Scenario A against a backend where no [kitty] window ever appears: one
    [exec kitty], the settle delay, one more pass, nothing further. *)
Lemma handle_window_launch_bounded_witness :
  exists tr,
    run (static_world [] 1) (_handle_window 2 "kitty" kitty_opts) [] = (Some tt, tr)
    /\ count_exec tr <= 1
    /\ passes tr <= 2
    /\ (entries tr = [false] \/ entries tr = [false; true]).
Proof.
  apply (handle_window_launch_bounded (static_world [] 1) [] 2 "kitty" kitty_opts).
  - reflexivity.
  - lia.
Defined.

Lemma scenario_A_trace :
  run (static_world [] 1) (_handle_window 2 "kitty" kitty_opts) []
  = (Some tt,
     [EvEnter false; EvGetClients; EvExecute "exec kitty"; EvSleep 500;
      EvEnter true; EvGetClients]).
Proof. reflexivity. Qed.

(** A pass that does not launch: the guard, then the decision. *)
Lemma run_handle_window_pass (w : World) (fuel : nat) (class_name : string)
    (opts : HdropOptions) (h : list Event) :
  launches w class_name opts h = false ->
  run w (_handle_window (S fuel) class_name opts) h
  = (Some tt,
     pass_prefix opts ++ act_trace w class_name opts (h ++ pass_prefix opts)).
Proof.
  unfold launches, pass_prefix, guard_reads. intros Hl.
  rewrite handle_window_unfold.
  destruct (negb (skip opts) && is_some (command opts)).
  - cbn [run]. rewrite run_bind.
    rewrite run_bind, run_is_window_exists. cbn [run app].
    cbn [andb] in Hl. rewrite Hl.
    rewrite run_act_on_window. rewrite <- !app_assoc. reflexivity.
  - cbn [run bind]. rewrite run_act_on_window. reflexivity.
Qed.

Lemma commands_pass_prefix (opts : HdropOptions) : commands (pass_prefix opts) = [].
Proof. unfold pass_prefix. destruct (guard_reads opts); reflexivity. Qed.

Lemma in_scratchpad_exists_in (class_name : string) (cs : list Client) :
  in_scratchpad class_name cs = true -> exists_in class_name cs = true.
Proof.
  unfold in_scratchpad, exists_in. rewrite !existsb_exists.
  intros [c [Hin Hc]]. exists c. split; [exact Hin|].
  apply andb_prop in Hc. tauto.
Qed.

(** While the window list is steady and shows the class, no pass launches. *)
Lemma steady_no_launch (w : World) (class_name : string) (opts : HdropOptions)
    (h : list Event) (cs : list Client) :
  steady w h cs ->
  exists_in class_name cs = true ->
  launches w class_name opts h = false.
Proof.
  intros Hst Hex. unfold launches.
  rewrite (Hst [EvEnter (skip opts)]) by reflexivity.
  rewrite Hex. destruct (guard_reads opts); reflexivity.
Qed.

Lemma steady_pass_prefix (w : World) (opts : HdropOptions) (h : list Event)
    (cs : list Client) (more : list Event) :
  steady w h cs ->
  commands more = [] ->
  clients_at w ((h ++ pass_prefix opts) ++ more) = cs.
Proof.
  intros Hst Hm. rewrite <- app_assoc. apply Hst.
  rewrite commands_app, commands_pass_prefix, Hm. reflexivity.
Qed.

(** ** hdrop: the decision table *)

(** C2, as amended.  In a decision pass that finds a window of the class in
    the scratchpad workspace, the first command moves the class to the
    active workspace, whose id is the answer to the [activeworkspace] query
    made just before.  With [floating] set the geometry normalizer follows,
    on a client list read after the move: it sends one
    [togglefloating address:<handle>] for each non-floating client of the
    class outside the scratchpad, or, when there is no client of the class
    outside the scratchpad, the class-wide [togglefloating class:<C>]
    whatever the floating state; then the resize and center commands. *)
Theorem restore_from_scratchpad (w : World) (h : list Event) (fuel : nat)
    (class_name : string) (opts : HdropOptions) (cs : list Client) :
  1 <= fuel ->
  steady w h cs ->
  in_scratchpad class_name cs = true ->
  let pre := pass_prefix opts ++ [EvGetClients; EvGetClients] in
  let move := "movetoworkspace "
              +:+ PyStr.of_int (ws_id (activeworkspace_at w (h ++ pre)))
              +:+ ",class:" +:+ class_name in
  let seen :=
    clients_at w (h ++ pre ++ [EvExecuteJson "activeworkspace"; EvExecute move]) in
  run w (_handle_window fuel class_name opts) h
  = (Some tt,
     pre ++ EvExecuteJson "activeworkspace" :: EvExecute move ::
     (if floating opts
      then EvGetClients ::
           map EvExecute (toggle_commands class_name seen
                          ++ resize_commands class_name (height opts) (width opts)
                          ++ center_commands class_name (center opts))
      else [])).
Proof.
  intros Hf Hst Hin. destruct fuel as [|fuel]; [lia|].
  pose proof (in_scratchpad_exists_in _ _ Hin) as Hex.
  rewrite run_handle_window_pass by (eapply steady_no_launch; eassumption).
  cbv zeta. rewrite <- app_assoc. do 2 f_equal.
  unfold act_trace.
  pose proof (steady_pass_prefix w opts h cs [] Hst eq_refl) as H0.
  rewrite app_nil_r in H0. rewrite H0, Hex.
  rewrite (steady_pass_prefix w opts h cs [EvGetClients] Hst eq_refl), Hin.
  cbv zeta. rewrite <- !app_assoc. reflexivity.
Qed.

(** C3.  In a decision pass that finds a window of the class outside the
    scratchpad workspace exactly one command is sent: the focus command when
    [focus] is set, the silent move to the scratchpad otherwise. *)
Theorem focus_or_hide (w : World) (h : list Event) (fuel : nat)
    (class_name : string) (opts : HdropOptions) (cs : list Client) :
  1 <= fuel ->
  steady w h cs ->
  exists_in class_name cs = true ->
  in_scratchpad class_name cs = false ->
  exists tr,
    run w (_handle_window fuel class_name opts) h = (Some tt, tr)
    /\ commands tr
       = [if focus opts
          then "focuswindow class:" +:+ class_name
          else "movetoworkspacesilent special:hdrop,class:" +:+ class_name].
Proof.
  intros Hf Hst Hex Hin. destruct fuel as [|fuel]; [lia|].
  eexists. split.
  - apply run_handle_window_pass. eapply steady_no_launch; eassumption.
  - rewrite commands_app, commands_pass_prefix, commands_act_trace.
    pose proof (steady_pass_prefix w opts h cs [] Hst eq_refl) as H0.
    rewrite app_nil_r in H0. rewrite H0, Hex.
    rewrite (steady_pass_prefix w opts h cs [EvGetClients] Hst eq_refl), Hin.
    reflexivity.
Qed.

(** Scenario C against a backend that carries out the move: the window, not
    floating, is toggled by its address. *)
Lemma restore_from_scratchpad_witness :
  run (moving_world [foo_client scratchpad false] [foo_client workspace_3 false] 3)
      (_handle_window 1 "foo" scenario_C_opts) []
  = (Some tt,
     [EvEnter false; EvGetClients; EvGetClients;
      EvExecuteJson "activeworkspace";
      EvExecute "movetoworkspace 3,class:foo";
      EvGetClients;
      EvExecute "togglefloating address:0x55d0";
      EvExecute "resizewindowpixel exact 600 400,class:foo";
      EvExecute "centerwindow class:foo"]).
Proof.
  apply (restore_from_scratchpad
           (moving_world [foo_client scratchpad false] [foo_client workspace_3 false] 3)
           [] 1 "foo" scenario_C_opts [foo_client scratchpad false]).
  - lia.
  - intros h' Hc. simpl. rewrite Hc. reflexivity.
  - reflexivity.
Defined.

(** Scenario C as the specification words it fails twice: a window still
    listed in the scratchpad is toggled class-wide although it is floating
    already, and a window listed in the active workspace is toggled by its
    address, not by its class. *)
Lemma scenario_C_counterexample :
  (commands (snd (run (static_world [foo_client scratchpad true] 3)
                      (_handle_window 2 "foo" scenario_C_opts) []))
   = ["movetoworkspace 3,class:foo"; "togglefloating class:foo";
      "resizewindowpixel exact 600 400,class:foo"; "centerwindow class:foo"]
   /\ commands (snd (run (static_world [foo_client scratchpad true] 3)
                         (_handle_window 2 "foo" scenario_C_opts) []))
      <> scenario_C_expected true)
  /\ (commands (snd (run (moving_world [foo_client scratchpad false]
                                       [foo_client workspace_3 false] 3)
                         (_handle_window 2 "foo" scenario_C_opts) []))
      = ["movetoworkspace 3,class:foo"; "togglefloating address:0x55d0";
         "resizewindowpixel exact 600 400,class:foo"; "centerwindow class:foo"]
      /\ commands (snd (run (moving_world [foo_client scratchpad false]
                                          [foo_client workspace_3 false] 3)
                            (_handle_window 2 "foo" scenario_C_opts) []))
         <> scenario_C_expected false).
Proof.
  split; split; try (vm_compute; reflexivity); vm_compute; intros H; discriminate H.
Qed.

(** Scenario B: a window in workspace 1, neither focus nor floating. *)
Lemma focus_or_hide_witness :
  exists tr,
    run (static_world [foo_client workspace_1 false] 1)
        (_handle_window 1 "foo" scenario_B_opts) [] = (Some tt, tr)
    /\ commands tr = ["movetoworkspacesilent special:hdrop,class:foo"].
Proof.
  apply (focus_or_hide (static_world [foo_client workspace_1 false] 1) [] 1
           "foo" scenario_B_opts [foo_client workspace_1 false]).
  - lia.
  - intros h' Hc. reflexivity.
  - reflexivity.
  - reflexivity.
Defined.

(** ** hdrop: a class without a window *)

Lemma not_exists_not_in_scratchpad (class_name : string) (cs : list Client) :
  exists_in class_name cs = false -> in_scratchpad class_name cs = false.
Proof.
  intros Hex. destruct (in_scratchpad class_name cs) eqn:Hin; [|reflexivity].
  apply in_scratchpad_exists_in in Hin. congruence.
Qed.

(** A pass over a steady window list without the class, with no launch path
    configured, reads the list and sends nothing. *)
Lemma run_handle_window_absent (w : World) (h : list Event) (fuel : nat)
    (class_name : string) (opts : HdropOptions) (cs : list Client) :
  steady w h cs ->
  exists_in class_name cs = false ->
  command opts = None \/ launch_on_missing opts = false ->
  exists tr,
    run w (_handle_window (S fuel) class_name opts) h = (Some tt, tr)
    /\ commands tr = [].
Proof.
  intros Hst Hex Hno. eexists. split.
  - apply run_handle_window_pass. unfold launches, guard_reads.
    destruct Hno as [-> | ->].
    + rewrite andb_false_r. reflexivity.
    + apply andb_false_r.
  - rewrite commands_app, commands_pass_prefix, commands_act_trace.
    pose proof (steady_pass_prefix w opts h cs [] Hst eq_refl) as H0.
    rewrite app_nil_r in H0. rewrite H0, Hex. reflexivity.
Qed.

(** C4 as stated fails for the focus entry point: with no window of class
    [foo] it still sends the focus command. *)
Lemma focus_absent_counterexample :
  exists_in "foo" [] = false
  /\ commands (snd (run (static_world [] 1) (run_focus "foo") []))
     = ["focuswindow class:foo"]
  /\ commands (snd (run (static_world [] 1) (run_focus "foo") [])) <> [].
Proof.
  split; [reflexivity|]. split; [reflexivity|].
  vm_compute. intros H. discriminate H.
Qed.

(** C4, as amended.  For a class absent from the window list and an entry
    without launch path (no command, or [launch_on_missing] false), the
    toggle and show entry points send no command; the focus entry point
    sends the one command [focuswindow class:<C>]. *)
Theorem absent_window_without_launch_path (apps : gmap string AppConf)
    (fuel : nat) (w : World) (h : list Event) (class_name : string)
    (cs : list Client) :
  1 <= fuel ->
  steady w h cs ->
  exists_in class_name cs = false ->
  conf_command (_get_app_config apps class_name) = None
  \/ get_flag (conf_launch_on_missing (_get_app_config apps class_name)) = false ->
  (forall args rest,
      PyStr.split_none_1 args = class_name :: rest ->
      (exists tr, run w (run_toggle apps fuel args) h = (Some None, tr)
                  /\ commands tr = [])
      /\ (exists tr, run w (run_show apps fuel args) h = (Some None, tr)
                     /\ commands tr = []))
  /\ (forall args,
        PyStr.strip args = class_name ->
        class_name <> "" ->
        exists tr, run w (run_focus args) h = (Some None, tr)
                   /\ commands tr = ["focuswindow class:" +:+ class_name]).
Proof.
  intros Hf Hst Hex Hno. destruct fuel as [|fuel]; [lia|]. split.
  - intros args rest Hsplit. split.
    + unfold run_toggle. rewrite Hsplit, run_bind.
      destruct (run_handle_window_absent w h fuel class_name
                  {| command := conf_command (_get_app_config apps class_name);
                     focus := get_flag (conf_focus (_get_app_config apps class_name));
                     floating := get_flag (conf_floating (_get_app_config apps class_name));
                     height := conf_height (_get_app_config apps class_name);
                     width := conf_width (_get_app_config apps class_name);
                     center := get_flag (conf_center (_get_app_config apps class_name));
                     skip := false;
                     launch_on_missing :=
                       get_flag (conf_launch_on_missing (_get_app_config apps class_name)) |}
                  cs Hst Hex Hno) as [tr [Hrun Hc]].
      rewrite Hrun. cbn [run]. exists (tr ++ []). split; [reflexivity|].
      rewrite app_nil_r. exact Hc.
    + unfold run_show. rewrite Hsplit, run_bind.
      destruct (run_handle_window_absent w h fuel class_name
                  {| command := conf_command (_get_app_config apps class_name);
                     focus := true;
                     floating := get_flag (conf_floating (_get_app_config apps class_name));
                     height := conf_height (_get_app_config apps class_name);
                     width := conf_width (_get_app_config apps class_name);
                     center := get_flag (conf_center (_get_app_config apps class_name));
                     skip := false;
                     launch_on_missing :=
                       get_flag (conf_launch_on_missing (_get_app_config apps class_name)) |}
                  cs Hst Hex Hno) as [tr [Hrun Hc]].
      rewrite Hrun. cbn [run]. exists (tr ++ []). split; [reflexivity|].
      rewrite app_nil_r. exact Hc.
  - intros args Hstrip Hne. unfold run_focus. rewrite Hstrip.
    destruct class_name as [|a cn]; [congruence|]. cbn [PyStr.is_empty].
    rewrite run_bind, run_is_window_in_hdrop.
    pose proof (Hst [] eq_refl) as H0. rewrite app_nil_r in H0.
    rewrite H0, (not_exists_not_in_scratchpad _ _ Hex).
    eexists. split; reflexivity.
Qed.

(** The class [foo] without entry in [hdrop.apps], against an empty window
    list. *)
Lemma absent_window_without_launch_path_witness :
  ((exists tr, run (static_world [] 1) (run_toggle ∅ 1 "foo --floating") []
               = (Some None, tr) /\ commands tr = [])
   /\ (exists tr, run (static_world [] 1) (run_show ∅ 1 "foo --floating") []
                  = (Some None, tr) /\ commands tr = []))
  /\ (exists tr, run (static_world [] 1) (run_focus " foo ") [] = (Some None, tr)
                 /\ commands tr = ["focuswindow class:foo"]).
Proof.
  destruct (absent_window_without_launch_path ∅ 1 (static_world [] 1) [] "foo" [])
    as [Htoggle_show Hfocus].
  - lia.
  - intros h' Hc. reflexivity.
  - reflexivity.
  - left. reflexivity.
  - split.
    + apply (Htoggle_show "foo --floating" ["--floating"]). reflexivity.
    + apply (Hfocus " foo "); [reflexivity | discriminate].
Defined.

(** ** hdrop: reads of the client list *)

Lemma run_handle_window_launch (w : World) (fuel : nat) (class_name : string)
    (opts : HdropOptions) (h : list Event) :
  launches w class_name opts h = true ->
  let launch := "exec " +:+ PyStr.fmt_str (command opts) in
  let h' := h ++ [EvEnter false; EvGetClients; EvExecute launch;
                  EvSleep settle_delay_ms] in
  skip opts = false
  /\ run w (_handle_window (S fuel) class_name opts) h
     = (fst (run w (_handle_window fuel class_name (retry_opts opts)) h'),
        EvEnter false :: EvGetClients :: EvExecute launch :: EvSleep settle_delay_ms
        :: snd (run w (_handle_window fuel class_name (retry_opts opts)) h')).
Proof.
  unfold launches, guard_reads. intros Hl.
  apply andb_prop in Hl. destruct Hl as [Hl Hlom].
  apply andb_prop in Hl. destruct Hl as [Hg Hex].
  apply andb_prop in Hg. destruct Hg as [Hs Hc].
  apply negb_true_iff in Hs. split; [exact Hs|].
  rewrite Hs in Hex.
  rewrite handle_window_unfold, Hs, Hc. cbn [negb andb run].
  rewrite run_bind.
  rewrite run_bind, run_is_window_exists. cbn [run app].
  fold (exists_in class_name (clients_at w (h ++ [EvEnter false]))).
  rewrite Hex, Hlom. cbn [andb bind execute sleep run].
  rewrite <- !app_assoc. cbn [app].
  destruct (run w (_handle_window fuel class_name (retry_opts opts)) _) as [r tr].
  reflexivity.
Qed.

Lemma split_passes_no_enter (tr : list Event) :
  passes tr = 0 -> split_passes tr = [tr].
Proof.
  induction tr as [|e tr IH]; [reflexivity|].
  destruct e; simpl; intros Hp; try discriminate; rewrite (IH Hp); reflexivity.
Qed.

Lemma client_queries_app (t1 t2 : list Event) :
  client_queries (t1 ++ t2) = client_queries t1 + client_queries t2.
Proof.
  induction t1 as [|e t1 IH]; [reflexivity|].
  destruct e; simpl; rewrite IH; reflexivity.
Qed.

Lemma client_queries_act_trace (w : World) (class_name : string)
    (opts : HdropOptions) (h : list Event) :
  1 <= client_queries (act_trace w class_name opts h) <= 3.
Proof.
  unfold act_trace.
  destruct (exists_in _ _); [|simpl; lia].
  destruct (in_scratchpad _ _); [|simpl; lia].
  cbv zeta. cbn [client_queries]. destruct (floating opts); [|simpl; lia].
  cbn [client_queries]. rewrite client_queries_map_execute. lia.
Qed.

(** The trace of [_handle_window] starts with an entry (or is empty, out of
    fuel), and each of its passes reads the client list one to four times. *)
Lemma handle_window_segments (w : World) (fuel : nat) :
  forall (class_name : string) (opts : HdropOptions) (h : list Event),
    exists segs,
      split_passes (snd (run w (_handle_window fuel class_name opts) h)) = [] :: segs
      /\ Forall (fun seg => 1 <= client_queries seg <= 4) segs.
Proof.
  induction fuel as [|fuel IH]; intros class_name opts h.
  - exists []. split; [reflexivity | constructor].
  - destruct (launches w class_name opts h) eqn:Hl.
    + destruct (run_handle_window_launch w fuel class_name opts h Hl) as [_ Hrun].
      cbv zeta in Hrun. rewrite Hrun. cbn [snd].
      destruct (IH class_name (retry_opts opts)
                  (h ++ [EvEnter false; EvGetClients;
                         EvExecute ("exec " +:+ PyStr.fmt_str (command opts));
                         EvSleep settle_delay_ms])) as [segs [Hsp HF]].
      cbn [split_passes]. rewrite Hsp.
      eexists. split; [reflexivity|].
      constructor; [simpl; lia | exact HF].
    + rewrite run_handle_window_pass by exact Hl. cbn [snd].
      unfold pass_prefix. cbn [app split_passes].
      rewrite split_passes_no_enter.
      * eexists. split; [reflexivity|].
        constructor; [|constructor].
        cbn [client_queries]. rewrite client_queries_app.
        pose proof (client_queries_act_trace w class_name opts
                      (h ++ EvEnter (skip opts)
                         :: (if guard_reads opts then [EvGetClients] else []))).
        destruct (guard_reads opts); cbn [client_queries app] in *; lia.
      * destruct (guard_reads opts); simpl; apply passes_act_trace.
Qed.

(** C5 as stated fails: one pass reads the client list four times. *)
Lemma single_snapshot_counterexample :
  map client_queries
      (pass_segments
         (snd (run (static_world [foo_client scratchpad false] 3)
                   (_handle_window 2 "foo"
                      {| command := Some "foo"; focus := false; floating := true;
                         height := None; width := None; center := false;
                         skip := false; launch_on_missing := true |}) [])))
  = [4]
  /\ ~ Forall (fun seg => client_queries seg <= 1)
        (pass_segments
           (snd (run (static_world [foo_client scratchpad false] 3)
                     (_handle_window 2 "foo"
                        {| command := Some "foo"; focus := false; floating := true;
                           height := None; width := None; center := false;
                           skip := false; launch_on_missing := true |}) []))).
Proof.
  split; [vm_compute; reflexivity|].
  vm_compute. intros HF. inversion HF as [|seg segs Hle _]; subst. lia.
Qed.

(** The predicates of one pass can disagree: the guard of the launch branch
    sees the window, the decision below it does not, and nothing is sent,
    although on either client list alone a command would be. *)
Lemma predicates_disagree_example :
  commands (snd (run (changing_world [foo_client workspace_1 false] [] 1)
                     (_handle_window 2 "foo" kitty_opts) [])) = []
  /\ commands (snd (run (static_world [foo_client workspace_1 false] 1)
                        (_handle_window 2 "foo" kitty_opts) []))
     = ["focuswindow class:foo"]
  /\ commands (snd (run (static_world [] 1)
                        (_handle_window 2 "foo" kitty_opts) []))
     = ["exec kitty"].
Proof. repeat split; vm_compute; reflexivity. Qed.

(** C5, as amended.  Each derived predicate of a decision pass -- the guard
    of the launch branch, [exists], [inScratchpad], the normalizer's filter
    -- is computed from its own read of the client list: in every call,
    whatever the backend does, each pass reads the list at least once and at
    most four times. *)
Theorem pass_reads_client_list (w : World) (h : list Event) (fuel : nat)
    (class_name : string) (opts : HdropOptions) :
  Forall (fun seg => 1 <= client_queries seg <= 4)
         (pass_segments (snd (run w (_handle_window fuel class_name opts) h))).
Proof.
  destruct (handle_window_segments w fuel class_name opts h) as [segs [Hsp HF]].
  unfold pass_segments. rewrite Hsp. exact HF.
Qed.

(** ** hdrop: the geometry normalizer *)

Lemma commands_configure_floating_window (w : World) (class_name : string)
    (hh ww : option Z) (cf : bool) (h : list Event) :
  commands (snd (run w (_configure_floating_window class_name hh ww cf) h))
  = normalizer_commands class_name hh ww cf (clients_at w h).
Proof.
  rewrite run_configure_floating_window. cbn [snd commands].
  apply commands_map_execute.
Qed.

Lemma in_target_clients (class_name : string) (cs : list Client) (c : Client) :
  In c (target_clients class_name cs)
  <-> In c cs /\ c_class c = class_name
      /\ ws_name (c_workspace c) <> "special:hdrop".
Proof.
  unfold target_clients. rewrite List.filter_In, andb_true_iff, negb_true_iff.
  rewrite String.eqb_eq, String.eqb_neq. tauto.
Qed.

(** What the toggle step sends, command by command. *)
Lemma in_toggle_commands (class_name : string) (cs : list Client) (cmd : string) :
  In cmd (toggle_commands class_name cs)
  <-> (target_clients class_name cs = []
       /\ cmd = "togglefloating class:" +:+ class_name)
      \/ (exists c, In c (target_clients class_name cs)
                    /\ c_floating c = false
                    /\ cmd = "togglefloating address:" +:+ c_address c).
Proof.
  unfold toggle_commands.
  destruct (target_clients class_name cs) as [|c0 ts] eqn:Ht.
  - simpl. split.
    + intros [<- | []]. left. split; reflexivity.
    + intros [[_ ->] | [c [[] _]]]. left. reflexivity.
  - rewrite in_map_iff. split.
    + intros [c [<- Hc]]. apply List.filter_In in Hc. destruct Hc as [Hin Hfl].
      right. exists c. apply negb_true_iff in Hfl. repeat split; assumption.
    + intros [[Hnil _] | [c [Hin [Hfl ->]]]]; [discriminate|].
      exists c. split; [reflexivity|].
      apply List.filter_In. split; [exact Hin|]. rewrite Hfl. reflexivity.
Qed.

Lemma toggle_in_normalizer_commands (class_name : string) (hh ww : option Z)
    (cf : bool) (cs : list Client) (cmd : string) :
  is_toggle cmd = true ->
  In cmd (normalizer_commands class_name hh ww cf cs)
  <-> In cmd (toggle_commands class_name cs).
Proof.
  intros Ht. unfold normalizer_commands. rewrite !in_app_iff.
  split; [|tauto].
  intros [H | [H | H]]; [exact H | exfalso | exfalso].
  - unfold resize_commands in H. destruct (is_some hh && is_some ww); [|destruct H].
    destruct H as [<- | []]. discriminate Ht.
  - unfold center_commands in H. destruct cf; [|destruct H].
    destruct H as [<- | []]. discriminate Ht.
Qed.

Lemma toggle_address_not_class (a class_name : string) :
  "togglefloating address:" +:+ a <> "togglefloating class:" +:+ class_name.
Proof. cbn [String.append]. discriminate. Qed.

(** C6.  The geometry normalizer sends [togglefloating address:<handle>]
    only for, and for each of, the clients of the class outside the
    scratchpad workspace that report [floating] false; it sends the
    class-wide [togglefloating class:<C>] exactly when the client list it
    reads has no client of the class outside the scratchpad workspace. *)
Theorem floating_toggle_guard (w : World) (h : list Event) (class_name : string)
    (hh ww : option Z) (cf : bool) :
  let cs := clients_at w h in
  let cmds :=
    commands (snd (run w (_configure_floating_window class_name hh ww cf) h)) in
  (forall a, In ("togglefloating address:" +:+ a) cmds ->
             exists c, In c cs /\ c_address c = a /\ c_class c = class_name
                       /\ ws_name (c_workspace c) <> "special:hdrop"
                       /\ c_floating c = false)
  /\ (forall c, In c cs -> c_class c = class_name ->
                ws_name (c_workspace c) <> "special:hdrop" ->
                c_floating c = false ->
                In ("togglefloating address:" +:+ c_address c) cmds)
  /\ (In ("togglefloating class:" +:+ class_name) cmds
      <-> forall c, In c cs ->
                    ~ (c_class c = class_name
                       /\ ws_name (c_workspace c) <> "special:hdrop")).
Proof.
  cbv zeta. rewrite commands_configure_floating_window.
  split; [|split].
  - intros a Hin.
    apply toggle_in_normalizer_commands in Hin; [|reflexivity].
    apply in_toggle_commands in Hin.
    destruct Hin as [[_ Heq] | [c [Hc [Hfl Heq]]]].
    + exfalso. exact (toggle_address_not_class _ _ Heq).
    + apply in_target_clients in Hc. destruct Hc as [Hin [Hcl Hws]].
      exists c. apply (inj (String.append _)) in Heq. subst a. tauto.
  - intros c Hin Hcl Hws Hfl.
    apply toggle_in_normalizer_commands; [reflexivity|].
    apply in_toggle_commands. right. exists c.
    split; [apply in_target_clients; tauto|]. split; [exact Hfl | reflexivity].
  - rewrite toggle_in_normalizer_commands by reflexivity.
    rewrite in_toggle_commands. split.
    + intros [[Hnil _] | [c [_ [_ Heq]]]].
      * intros c Hin [Hcl Hws].
        assert (Hc : In c (target_clients class_name (clients_at w h)))
          by (apply in_target_clients; tauto).
        rewrite Hnil in Hc. destruct Hc.
      * exfalso. symmetry in Heq. exact (toggle_address_not_class _ _ Heq).
    + intros Hnone. left. split; [|reflexivity].
      destruct (target_clients class_name (clients_at w h)) as [|c ts] eqn:Ht;
        [reflexivity|].
      exfalso. assert (Hc : In c (target_clients class_name (clients_at w h)))
        by (rewrite Ht; left; reflexivity).
      apply in_target_clients in Hc. destruct Hc as [Hin Hrest].
      exact (Hnone c Hin Hrest).
Qed.

Lemma toggles_no_resize_no_center (cmds : list string) :
  Forall (fun c => is_toggle c = true) cmds ->
  existsb is_resize cmds = false /\ existsb is_center cmds = false.
Proof.
  induction 1 as [|c l Hc _ [IHr IHc]]; [split; reflexivity|].
  cbn [existsb]. rewrite IHr, IHc.
  destruct c as [|a c]; [discriminate|].
  unfold is_toggle, is_resize, is_center in *. cbn [String.prefix] in *.
  destruct (ascii_dec "t"%char a) as [<-|]; [split; reflexivity | discriminate].
Qed.

(** C7.  The commands of the geometry normalizer are the floating toggles,
    then the resize command, present if and only if both [height] and
    [width] are given, then the center command, present if and only if
    [center] is set. *)
Theorem normalizer_order (w : World) (h : list Event) (class_name : string)
    (hh ww : option Z) (cf : bool) :
  let cmds :=
    commands (snd (run w (_configure_floating_window class_name hh ww cf) h)) in
  (exists toggles,
      Forall (fun c => is_toggle c = true) toggles
      /\ cmds
         = toggles
           ++ match hh, ww with
              | Some hv, Some wv =>
                  ["resizewindowpixel exact " +:+ PyStr.of_int wv +:+ " "
                   +:+ PyStr.of_int hv +:+ ",class:" +:+ class_name]
              | _, _ => []
              end
           ++ (if cf then ["centerwindow class:" +:+ class_name] else []))
  /\ existsb is_resize cmds = is_some hh && is_some ww
  /\ existsb is_center cmds = cf.
Proof.
  cbv zeta. rewrite commands_configure_floating_window.
  unfold normalizer_commands.
  pose proof (toggle_commands_are_toggles class_name (clients_at w h)) as Ht.
  destruct (toggles_no_resize_no_center _ Ht) as [Hr Hc].
  split; [|split].
  - exists (toggle_commands class_name (clients_at w h)).
    split; [exact Ht|].
    unfold resize_commands, center_commands.
    destruct hh, ww; reflexivity.
  - rewrite !existsb_app, Hr. unfold resize_commands, center_commands.
    destruct (is_some hh && is_some ww); destruct cf; reflexivity.
  - rewrite !existsb_app, Hc. unfold resize_commands, center_commands.
    destruct (is_some hh && is_some ww); destruct cf; reflexivity.
Qed.

(** ** hdrop: the entry points *)

(** C8.  The hide entry point, called with a class name, returns no error;
    it sends the one command [movetoworkspacesilent special:hdrop,class:<C>]
    when the client list has a window of the class, in whatever workspace,
    and no command when it has none. *)
Theorem hide_entry_point (w : World) (h : list Event) (args : string) :
  PyStr.strip args <> "" ->
  let class_name := PyStr.strip args in
  exists tr,
    run w (run_hide args) h = (Some None, tr)
    /\ commands tr
       = if exists_in class_name (clients_at w h)
         then ["movetoworkspacesilent special:hdrop,class:" +:+ class_name]
         else [].
Proof.
  intros Hne. cbv zeta. unfold run_hide.
  destruct (PyStr.strip args) as [|a cn] eqn:Hs; [congruence|].
  cbn [PyStr.is_empty]. rewrite run_bind, run_is_window_exists.
  destruct (exists_in (String a cn) (clients_at w h)); eexists; split; reflexivity.
Qed.

(** Hiding a window that is in the scratchpad already, and a class without
    window. *)
Lemma hide_entry_point_witness :
  (exists tr,
      run (static_world [foo_client scratchpad false] 1) (run_hide "foo") []
      = (Some None, tr)
      /\ commands tr = ["movetoworkspacesilent special:hdrop,class:foo"])
  /\ (exists tr,
        run (static_world [] 1) (run_hide "foo") [] = (Some None, tr)
        /\ commands tr = []).
Proof.
  split.
  - apply (hide_entry_point (static_world [foo_client scratchpad false] 1) [] "foo").
    discriminate.
  - apply (hide_entry_point (static_world [] 1) [] "foo"). discriminate.
Defined.

(** *** Argument strings without a token *)

Lemma blank_strip (s : string) : PyStr.blank s = true -> PyStr.strip s = "".
Proof.
  unfold PyStr.blank, PyStr.strip.
  destruct (PyStr.lstrip s); [reflexivity | discriminate].
Qed.

Lemma blank_split_none_1 (s : string) :
  PyStr.blank s = true -> PyStr.split_none_1 s = [].
Proof.
  unfold PyStr.blank, PyStr.split_none_1. intros ->. reflexivity.
Qed.

(** What is left of a string with a token starts with a non-space. *)
Lemma lstrip_not_blank (s : string) :
  PyStr.blank s = false ->
  exists c r, PyStr.lstrip s = String c r /\ PyStr.isspace c = false.
Proof.
  unfold PyStr.blank. induction s as [|c s IH]; [discriminate|].
  cbn [PyStr.lstrip]. destruct (PyStr.isspace c) eqn:Hc.
  - exact IH.
  - intros _. exists c, s. split; [reflexivity | exact Hc].
Qed.

Lemma rstrip_keeps_head (c : ascii) (r : string) :
  PyStr.isspace c = false ->
  PyStr.rstrip (String c r) = String c (PyStr.rstrip r).
Proof.
  intros Hc. cbn [PyStr.rstrip]. rewrite Hc, andb_false_r. reflexivity.
Qed.

Lemma strip_not_blank (s : string) :
  PyStr.blank s = false ->
  exists c r, PyStr.strip s = String c r /\ PyStr.isspace c = false.
Proof.
  intros Hb. destruct (lstrip_not_blank s Hb) as [c [r [Hl Hc]]].
  exists c, (PyStr.rstrip r). unfold PyStr.strip.
  rewrite Hl, (rstrip_keeps_head c r Hc). split; [reflexivity | exact Hc].
Qed.

(** The first element that [run_hdrop] takes from the split list exists,
    and is not empty. *)
Lemma split_none_1_strip_nonempty (s : string) :
  PyStr.blank s = false ->
  exists tok rest,
    PyStr.split_none_1 (PyStr.strip s) = tok :: rest
    /\ PyStr.is_empty tok = false.
Proof.
  intros Hb. destruct (strip_not_blank s Hb) as [c [r [-> Hc]]].
  unfold PyStr.split_none_1. cbn [PyStr.lstrip]. rewrite Hc.
  cbn [PyStr.is_empty PyStr.span_token]. rewrite Hc.
  destruct (PyStr.span_token r) as [tok rest].
  destruct (PyStr.is_empty (PyStr.lstrip rest)); eexists; eexists;
    split; reflexivity.
Qed.

Lemma get_app_config_absent (apps : gmap string AppConf) (app_name : string) :
  apps !! app_name = None ->
  conf_is_empty (_get_app_config apps app_name) = true.
Proof. unfold _get_app_config. intros ->. reflexivity. Qed.

(** C9.  An argument string without a name or class token makes each of the
    five entry points return its error string with no event at the backend;
    so does an application name absent from [hdrop.apps] at the primary
    entry point, called directly ([run_app]) or through [run_hdrop]. *)
Theorem entry_point_errors (apps : gmap string AppConf) (fuel : nat)
    (w : World) (h : list Event) :
  (forall args,
      PyStr.blank args = true ->
      run w (run_hdrop apps fuel args) h
      = (Some (Some "Error: app name required (defined under hdrop.apps)"), [])
      /\ run w (run_toggle apps fuel args) h
         = (Some (Some "Error: CLASS name required"), [])
      /\ run w (run_focus args) h = (Some (Some "Error: CLASS name required"), [])
      /\ run w (run_show apps fuel args) h
         = (Some (Some "Error: CLASS name required"), [])
      /\ run w (run_hide args) h = (Some (Some "Error: CLASS name required"), []))
  /\ (forall app_name,
        apps !! app_name = None ->
        run w (run_app apps fuel app_name) h
        = (Some (Some ("Error: app '" +:+ app_name +:+ "' not configured")), []))
  /\ (forall args,
        PyStr.blank args = false ->
        apps !! hd "" (PyStr.split_none_1 (PyStr.strip args)) = None ->
        run w (run_hdrop apps fuel args) h
        = (Some (Some ("Error: app '"
                       +:+ hd "" (PyStr.split_none_1 (PyStr.strip args))
                       +:+ "' not configured")), [])).
Proof.
  split; [|split].
  - intros args Hb.
    unfold run_hdrop, run_toggle, run_focus, run_show, run_hide.
    rewrite (blank_strip args Hb), (blank_split_none_1 args Hb).
    cbn [PyStr.is_empty negb andb]. rewrite andb_false_r.
    repeat split; reflexivity.
  - intros app_name Hno. unfold run_app.
    rewrite (get_app_config_absent apps app_name Hno). reflexivity.
  - intros args Hb Hno. unfold run_hdrop.
    destruct (strip_not_blank args Hb) as [c [r [Hs _]]].
    destruct (split_none_1_strip_nonempty args Hb) as [tok [rest [Hsp Htok]]].
    assert (Ha : PyStr.is_empty args = false).
    { destruct args; [discriminate Hb | reflexivity]. }
    rewrite Ha. rewrite Hsp in *. cbn [hd] in *.
    rewrite Hs. cbn [PyStr.is_empty negb andb]. rewrite Htok.
    unfold run_app. rewrite (get_app_config_absent apps tok Hno). reflexivity.
Qed.

(** A blank argument string at the five entry points, and the unknown
    application [foot] at the primary one. *)
Lemma entry_point_errors_witness :
  (run (static_world [] 1) (run_hdrop kitty_apps 2 "  ") []
   = (Some (Some "Error: app name required (defined under hdrop.apps)"), [])
   /\ run (static_world [] 1) (run_toggle kitty_apps 2 "  ") []
      = (Some (Some "Error: CLASS name required"), [])
   /\ run (static_world [] 1) (run_focus "  ") []
      = (Some (Some "Error: CLASS name required"), [])
   /\ run (static_world [] 1) (run_show kitty_apps 2 "  ") []
      = (Some (Some "Error: CLASS name required"), [])
   /\ run (static_world [] 1) (run_hide "  ") []
      = (Some (Some "Error: CLASS name required"), []))
  /\ run (static_world [] 1) (run_app kitty_apps 2 "foot") []
     = (Some (Some "Error: app 'foot' not configured"), [])
  /\ run (static_world [] 1) (run_hdrop kitty_apps 2 " foot --now") []
     = (Some (Some "Error: app 'foot' not configured"), []).
Proof.
  destruct (entry_point_errors kitty_apps 2 (static_world [] 1) [])
    as [Hblank [Happ Hhdrop]].
  split; [|split].
  - apply (Hblank "  "). reflexivity.
  - apply (Happ "foot"). reflexivity.
  - apply (Hhdrop " foot --now"); reflexivity.
Defined.

(** The normalizer on [mixed_clients]: the one non-floating window outside
    the scratchpad is toggled, by its address. *)
Lemma floating_toggle_guard_witness :
  In "togglefloating address:0xa"
     (commands (snd (run (static_world mixed_clients 1)
                         (_configure_floating_window "foo" None None false) []))).
Proof.
  destruct (floating_toggle_guard (static_world mixed_clients 1) [] "foo"
              None None false) as [_ [Heach _]].
  apply (Heach {| c_address := "0xa"; c_class := "foo"; c_title := "one";
                  c_workspace := workspace_1; c_floating := false |}).
  - left. reflexivity.
  - reflexivity.
  - discriminate.
  - reflexivity.
Defined.

(** * Further properties of the code *)

(** ** hdrop: launching *)

Lemma sleeps_map_execute (cmds : list string) : sleeps (map EvExecute cmds) = 0.
Proof. induction cmds as [|c cmds IH]; simpl; congruence. Qed.

Lemma sleeps_act_trace (w : World) (class_name : string) (opts : HdropOptions)
    (h : list Event) :
  sleeps (act_trace w class_name opts h) = 0.
Proof.
  unfold act_trace.
  destruct (exists_in _ _); [|reflexivity].
  destruct (in_scratchpad _ _); [|reflexivity].
  cbn [sleeps]. destruct (floating opts); [|reflexivity].
  cbn [sleeps]. apply sleeps_map_execute.
Qed.

Lemma act_commands_not_exec (w : World) (class_name : string)
    (opts : HdropOptions) (h : list Event) :
  Forall (fun c => is_exec c = false) (commands (act_trace w class_name opts h)).
Proof.
  pose proof (count_exec_act_trace w class_name opts h) as Hc.
  unfold count_exec in Hc.
  induction (commands (act_trace w class_name opts h)) as [|c l IH];
    [constructor|].
  cbn [List.filter] in Hc. destruct (is_exec c) eqn:Hx; [discriminate Hc|].
  constructor; [exact Hx | exact (IH Hc)].
Qed.

(** X1.  The launch branch is taken exactly on its condition: a top-level call
    sends [exec <command>] first when [launch_condition] holds, and never
    sends an [exec] otherwise. *)
Theorem exec_exactly_on_launch_condition (w : World) (h : list Event)
    (fuel : nat) (class_name : string) (opts : HdropOptions) :
  skip opts = false ->
  2 <= fuel ->
  exists rest,
    commands (snd (run w (_handle_window fuel class_name opts) h))
    = (if launch_condition w class_name opts h
       then ["exec " +:+ PyStr.fmt_str (command opts)] else [])
      ++ rest
    /\ Forall (fun c => is_exec c = false) rest.
Proof.
  intros Hs Hf. destruct fuel as [|[|fuel]]; [lia | lia |].
  rewrite run_handle_window by exact Hs. cbn [snd].
  unfold handle_trace, launch_condition.
  destruct (is_some (command opts)).
  - cbv zeta. cbn [andb].
    destruct (negb (exists_in class_name (clients_at w (h ++ [EvEnter false])))
              && launch_on_missing opts).
    + eexists. split; [cbn [commands app]; reflexivity|].
      apply act_commands_not_exec.
    + eexists. split; [cbn [commands app]; reflexivity|].
      apply act_commands_not_exec.
  - cbn [andb]. eexists. split; [cbn [commands app]; reflexivity|].
    apply act_commands_not_exec.
Qed.

(** Scenario A: [kitty] is missing and is launched. *)
Lemma exec_exactly_on_launch_condition_witness :
  exists rest,
    commands (snd (run (static_world [] 1) (_handle_window 2 "kitty" kitty_opts) []))
    = ["exec kitty"] ++ rest
    /\ Forall (fun c => is_exec c = false) rest.
Proof.
  apply (exec_exactly_on_launch_condition (static_world [] 1) [] 2 "kitty"
           kitty_opts).
  - reflexivity.
  - lia.
Defined.

(** X2.  A call entered with [skip] set is one pass: it returns with a recursion
    bound of 1, sends no [exec], does not sleep and does not read the client
    list for the launch guard. *)
Theorem skip_pass_never_launches (w : World) (h : list Event) (fuel : nat)
    (class_name : string) (opts : HdropOptions) :
  skip opts = true ->
  1 <= fuel ->
  exists tr,
    run w (_handle_window fuel class_name opts) h = (Some tt, tr)
    /\ count_exec tr = 0
    /\ sleeps tr = 0
    /\ entries tr = [true]
    /\ client_queries tr <= 3.
Proof.
  intros Hs Hf. destruct fuel as [|fuel]; [lia|].
  eexists. split; [apply run_handle_window_skip; exact Hs|].
  rewrite count_exec_cons. cbn [sleeps entries client_queries].
  rewrite count_exec_act_trace, sleeps_act_trace, entries_act_trace.
  pose proof (client_queries_act_trace w class_name opts (h ++ [EvEnter true])).
  repeat split; lia.
Qed.

(** The retry of Scenario A on its own. *)
Lemma skip_pass_never_launches_witness :
  exists tr,
    run (static_world [] 1) (_handle_window 1 "kitty" (retry_opts kitty_opts)) []
    = (Some tt, tr)
    /\ count_exec tr = 0
    /\ sleeps tr = 0
    /\ entries tr = [true]
    /\ client_queries tr <= 3.
Proof.
  apply (skip_pass_never_launches (static_world [] 1) [] 1 "kitty"
           (retry_opts kitty_opts)).
  - reflexivity.
  - lia.
Defined.

(** A launching call is the launch -- guard read, [exec], settle delay of
    500 ms -- followed by exactly what a call with [skip] set and otherwise
    the same options does from there. *)
Theorem launch_then_retry (w : World) (h : list Event) (fuel : nat)
    (class_name : string) (opts : HdropOptions) :
  skip opts = false ->
  launch_condition w class_name opts h = true ->
  run w (_handle_window (S fuel) class_name opts) h
  = (fst (run w (_handle_window fuel class_name (retry_opts opts))
            (h ++ launch_events opts)),
     launch_events opts
     ++ snd (run w (_handle_window fuel class_name (retry_opts opts))
               (h ++ launch_events opts))).
Proof.
  intros Hs Hl.
  assert (Hl' : launches w class_name opts h = true).
  { unfold launches, guard_reads. unfold launch_condition in Hl.
    rewrite Hs. exact Hl. }
  destruct (run_handle_window_launch w fuel class_name opts h Hl') as [_ Hrun].
  exact Hrun.
Qed.

Lemma launch_then_retry_witness :
  run (static_world [] 1) (_handle_window 2 "kitty" kitty_opts) []
  = (Some tt,
     [EvEnter false; EvGetClients; EvExecute "exec kitty"; EvSleep 500]
     ++ [EvEnter true; EvGetClients]).
Proof.
  apply (launch_then_retry (static_world [] 1) [] 1 "kitty" kitty_opts);
    reflexivity.
Defined.

(** The commands of a pass that does not launch, over a steady client list
    that shows the class outside the scratchpad or not at all. *)
Lemma commands_pass_not_hidden (w : World) (h : list Event) (fuel : nat)
    (class_name : string) (opts : HdropOptions) (cs : list Client) :
  launches w class_name opts h = false ->
  steady w h cs ->
  in_scratchpad class_name cs = false ->
  commands (snd (run w (_handle_window (S fuel) class_name opts) h))
  = if exists_in class_name cs
    then [if focus opts
          then "focuswindow class:" +:+ class_name
          else "movetoworkspacesilent special:hdrop,class:" +:+ class_name]
    else [].
Proof.
  intros Hl Hst Hin.
  rewrite run_handle_window_pass by exact Hl. cbn [snd].
  rewrite commands_app, commands_pass_prefix, commands_act_trace.
  pose proof (steady_pass_prefix w opts h cs [] Hst eq_refl) as H0.
  rewrite app_nil_r in H0. rewrite H0.
  destruct (exists_in class_name cs); [|reflexivity].
  rewrite (steady_pass_prefix w opts h cs [EvGetClients] Hst eq_refl), Hin.
  reflexivity.
Qed.

(** X3.  After a launch the retry decides on the window list of its own time: a
    launched window that shows up outside the scratchpad is focused when
    [focus] is set and is moved to the scratchpad at once when it is not; a
    window that does not show up gets no further command. *)
Theorem launched_window_focus_or_hide (w : World) (h : list Event) (fuel : nat)
    (class_name : string) (opts : HdropOptions) (cs : list Client) :
  skip opts = false ->
  2 <= fuel ->
  launch_condition w class_name opts h = true ->
  steady w (h ++ launch_events opts) cs ->
  in_scratchpad class_name cs = false ->
  commands (snd (run w (_handle_window fuel class_name opts) h))
  = ("exec " +:+ PyStr.fmt_str (command opts))
    :: (if exists_in class_name cs
        then [if focus opts
              then "focuswindow class:" +:+ class_name
              else "movetoworkspacesilent special:hdrop,class:" +:+ class_name]
        else []).
Proof.
  intros Hs Hf Hl Hst Hin. destruct fuel as [|[|fuel]]; [lia | lia |].
  rewrite (launch_then_retry w h (S fuel) class_name opts Hs Hl). cbn [snd].
  rewrite commands_app. cbn [launch_events commands app]. f_equal.
  apply (commands_pass_not_hidden w _ fuel class_name (retry_opts opts) cs);
    [reflexivity | exact Hst | exact Hin].
Qed.

(** [kitty] with [focus] off, launched against a backend where the window
    shows up in workspace 1: it is hidden right after the launch. *)
Lemma launched_window_focus_or_hide_witness :
  commands
    (snd (run (moving_world []
                 [{| c_address := "0x2e"; c_class := "kitty"; c_title := "shell";
                     c_workspace := workspace_1; c_floating := false |}] 1)
              (_handle_window 2 "kitty"
                 {| command := Some "kitty"; focus := false; floating := false;
                    height := None; width := None; center := false;
                    skip := false; launch_on_missing := true |}) []))
  = ["exec kitty"; "movetoworkspacesilent special:hdrop,class:kitty"].
Proof.
  apply (launched_window_focus_or_hide
           (moving_world []
              [{| c_address := "0x2e"; c_class := "kitty"; c_title := "shell";
                  c_workspace := workspace_1; c_floating := false |}] 1)
           [] 2 "kitty"
           {| command := Some "kitty"; focus := false; floating := false;
              height := None; width := None; center := false;
              skip := false; launch_on_missing := true |}
           [{| c_address := "0x2e"; c_class := "kitty"; c_title := "shell";
               c_workspace := workspace_1; c_floating := false |}]).
  - reflexivity.
  - lia.
  - reflexivity.
  - intros h' Hc. reflexivity.
  - reflexivity.
Defined.

(** ** hdrop: geometry commands *)

Lemma toggle_is_geometry (cmd : string) : is_toggle cmd = true -> is_geometry cmd = true.
Proof. unfold is_geometry. intros ->. reflexivity. Qed.

Lemma normalizer_commands_geometry (class_name : string) (hh ww : option Z)
    (cf : bool) (cs : list Client) :
  Forall (fun c => is_geometry c = true) (normalizer_commands class_name hh ww cf cs).
Proof.
  unfold normalizer_commands. rewrite !Forall_app. split; [|split].
  - eapply List.Forall_impl; [|apply toggle_commands_are_toggles].
    intros c Hc. apply toggle_is_geometry. exact Hc.
  - unfold resize_commands. destruct (is_some hh && is_some ww);
      [constructor; [reflexivity | constructor] | constructor].
  - unfold center_commands. destruct cf;
      [constructor; [reflexivity | constructor] | constructor].
Qed.

Lemma prefix_append (p s : string) : String.prefix p (p +:+ s) = true.
Proof.
  induction p as [|a p IH].
  - destruct s; reflexivity.
  - change (String a p +:+ s) with (String a (p +:+ s)).
    cbn [String.prefix]. destruct (ascii_dec a a); [exact IH | congruence].
Qed.

(** The commands of the decision: at most one command that is no geometry
    command, and after it geometry commands only with [floating] set and
    only behind a move to the active workspace. *)
Lemma act_commands_shape (w : World) (class_name : string) (opts : HdropOptions)
    (h : list Event) :
  exists front back,
    commands (act_trace w class_name opts h) = front ++ back
    /\ length front <= 1
    /\ Forall (fun c => is_geometry c = false) front
    /\ Forall (fun c => is_geometry c = true) back
    /\ (back <> [] ->
        floating opts = true
        /\ exists mv, front = [mv] /\ is_move mv = true).
Proof.
  rewrite commands_act_trace.
  destruct (exists_in _ _).
  - destruct (in_scratchpad _ _).
    + cbv zeta. eexists [_]. destruct (floating opts).
      * eexists. split; [reflexivity|]. split; [simpl; lia|].
        split; [constructor; [reflexivity | constructor]|].
        split; [apply normalizer_commands_geometry|].
        intros _. split; [reflexivity|]. eexists.
        split; [reflexivity | apply prefix_append].
      * exists []. split; [reflexivity|]. split; [simpl; lia|].
        split; [constructor; [reflexivity | constructor]|].
        split; [constructor|]. intros Hne. congruence.
    + eexists [_], []. split; [reflexivity|]. split; [simpl; lia|].
      split; [constructor; [destruct (focus opts); reflexivity | constructor]|].
      split; [constructor|]. intros Hne. congruence.
  - exists [], []. split; [reflexivity|]. split; [simpl; lia|].
    split; [constructor|]. split; [constructor|]. intros Hne. congruence.
Qed.

(** X4.  In a top-level call the geometry commands (floating toggle, resize,
    center) come last and only directly behind a move to the active
    workspace, and only with [floating] set: a window is never resized or
    centered while the plugin has not moved it out of the scratchpad. *)
Theorem geometry_only_after_move (w : World) (h : list Event) (fuel : nat)
    (class_name : string) (opts : HdropOptions) :
  skip opts = false ->
  2 <= fuel ->
  exists front back,
    commands (snd (run w (_handle_window fuel class_name opts) h)) = front ++ back
    /\ Forall (fun c => is_geometry c = false) front
    /\ Forall (fun c => is_geometry c = true) back
    /\ (back <> [] ->
        floating opts = true
        /\ exists front' mv, front = front' ++ [mv] /\ is_move mv = true).
Proof.
  intros Hs Hf. destruct fuel as [|[|fuel]]; [lia | lia |].
  rewrite run_handle_window by exact Hs. cbn [snd]. unfold handle_trace.
  destruct (is_some (command opts)).
  - cbv zeta.
    destruct (negb (exists_in class_name (clients_at w (h ++ [EvEnter false])))
              && launch_on_missing opts).
    + cbn [commands].
      destruct (act_commands_shape w class_name (retry_opts opts)
                  ((h ++ [EvEnter false])
                   ++ [EvGetClients;
                       EvExecute ("exec " +:+ PyStr.fmt_str (command opts));
                       EvSleep settle_delay_ms; EvEnter true]))
        as [front [back [Hc [_ [Hfr [Hb Hmv]]]]]].
      exists (("exec " +:+ PyStr.fmt_str (command opts)) :: front), back.
      rewrite Hc. split; [reflexivity|].
      split; [constructor; [reflexivity | exact Hfr]|].
      split; [exact Hb|].
      intros Hne. destruct (Hmv Hne) as [Hfl [mv [-> Hm]]].
      split; [exact Hfl|]. exists ["exec " +:+ PyStr.fmt_str (command opts)], mv.
      split; [reflexivity | exact Hm].
    + cbn [commands].
      destruct (act_commands_shape w class_name opts
                  ((h ++ [EvEnter false]) ++ [EvGetClients]))
        as [front [back [Hc [_ [Hfr [Hb Hmv]]]]]].
      exists front, back. rewrite Hc. split; [reflexivity|].
      split; [exact Hfr|]. split; [exact Hb|].
      intros Hne. destruct (Hmv Hne) as [Hfl [mv [-> Hm]]].
      split; [exact Hfl|]. exists [], mv. split; [reflexivity | exact Hm].
  - cbn [commands].
    destruct (act_commands_shape w class_name opts (h ++ [EvEnter false]))
      as [front [back [Hc [_ [Hfr [Hb Hmv]]]]]].
    exists front, back. rewrite Hc. split; [reflexivity|].
    split; [exact Hfr|]. split; [exact Hb|].
    intros Hne. destruct (Hmv Hne) as [Hfl [mv [-> Hm]]].
    split; [exact Hfl|]. exists [], mv. split; [reflexivity | exact Hm].
Qed.

(** Scenario C: the move, then the three geometry commands. *)
Lemma geometry_only_after_move_witness :
  exists front back,
    commands (snd (run (static_world [foo_client scratchpad false] 3)
                       (_handle_window 2 "foo" scenario_C_opts) []))
    = front ++ back
    /\ Forall (fun c => is_geometry c = false) front
    /\ Forall (fun c => is_geometry c = true) back
    /\ (back <> [] ->
        floating scenario_C_opts = true
        /\ exists front' mv, front = front' ++ [mv] /\ is_move mv = true).
Proof.
  apply (geometry_only_after_move (static_world [foo_client scratchpad false] 3)
           [] 2 "foo" scenario_C_opts).
  - reflexivity.
  - lia.
Defined.

(** X5.  Without [floating] a top-level call sends at most one command besides a
    launch: at most two commands when it launches, at most one otherwise. *)
Theorem command_budget_without_floating (w : World) (h : list Event)
    (fuel : nat) (class_name : string) (opts : HdropOptions) :
  skip opts = false ->
  2 <= fuel ->
  floating opts = false ->
  length (commands (snd (run w (_handle_window fuel class_name opts) h)))
  <= if launch_condition w class_name opts h then 2 else 1.
Proof.
  intros Hs Hf Hfl. destruct fuel as [|[|fuel]]; [lia | lia |].
  assert (Hact : forall o h', floating o = false ->
            length (commands (act_trace w class_name o h')) <= 1).
  { intros o h' Ho.
    destruct (act_commands_shape w class_name o h')
      as [front [back [Hc [Hlen [_ [_ Hmv]]]]]].
    destruct back as [|b back].
    - rewrite Hc, app_nil_r. exact Hlen.
    - destruct (Hmv ltac:(discriminate)) as [Ht _]. congruence. }
  rewrite run_handle_window by exact Hs. cbn [snd].
  unfold handle_trace, launch_condition.
  destruct (is_some (command opts)).
  - cbv zeta. cbn [andb].
    destruct (negb (exists_in class_name (clients_at w (h ++ [EvEnter false])))
              && launch_on_missing opts); cbn [commands length].
    + pose proof (Hact (retry_opts opts)
                    ((h ++ [EvEnter false])
                     ++ [EvGetClients;
                         EvExecute ("exec " +:+ PyStr.fmt_str (command opts));
                         EvSleep settle_delay_ms; EvEnter true]) Hfl).
      lia.
    + apply Hact. exact Hfl.
  - cbn [andb commands]. apply Hact. exact Hfl.
Qed.

(** Scenario B: one command. *)
Lemma command_budget_without_floating_witness :
  length (commands (snd (run (static_world [foo_client workspace_1 false] 1)
                             (_handle_window 2 "foo" scenario_B_opts) [])))
  <= 1.
Proof.
  apply (command_budget_without_floating
           (static_world [foo_client workspace_1 false] 1) [] 2 "foo"
           scenario_B_opts).
  - reflexivity.
  - lia.
  - reflexivity.
Defined.


(** ** hdrop: what the entry points never do *)

Lemma geometry_not_hide (cmd : string) : is_geometry cmd = true -> is_hide cmd = false.
Proof.
  destruct cmd as [|a cmd]; [reflexivity|].
  unfold is_geometry, is_toggle, is_resize, is_center, is_hide.
  cbn [String.prefix].
  destruct (ascii_dec "m"%char a) as [<-|]; [|reflexivity].
  discriminate.
Qed.

Lemma act_commands_not_hide (w : World) (class_name : string)
    (opts : HdropOptions) (h : list Event) :
  focus opts = true ->
  Forall (fun c => is_hide c = false) (commands (act_trace w class_name opts h)).
Proof.
  intros Hfo. rewrite commands_act_trace, Hfo.
  destruct (exists_in _ _); [|constructor].
  destruct (in_scratchpad _ _).
  - cbv zeta. constructor; [reflexivity|].
    destruct (floating opts); [|constructor].
    eapply List.Forall_impl; [|apply normalizer_commands_geometry].
    intros c Hc. apply geometry_not_hide. exact Hc.
  - constructor; [reflexivity | constructor].
Qed.

(** X6.  The show entry point never moves a window to the scratchpad, whatever
    the configuration of the class and whatever the backend does. *)
Theorem show_never_hides (apps : gmap string AppConf) (fuel : nat) (w : World)
    (h : list Event) (args : string) :
  2 <= fuel ->
  Forall (fun c => is_hide c = false)
         (commands (snd (run w (run_show apps fuel args) h))).
Proof.
  intros Hf. destruct fuel as [|[|fuel]]; [lia | lia |].
  unfold run_show. destruct (PyStr.split_none_1 args) as [|class_name rest].
  - constructor.
  - rewrite run_bind, run_handle_window by reflexivity.
    cbn [run snd]. rewrite app_nil_r. unfold handle_trace.
    cbn [command focus floating height width center skip launch_on_missing].
    destruct (is_some (conf_command (_get_app_config apps class_name))).
    + cbv zeta.
      destruct (negb (exists_in class_name (clients_at w (h ++ [EvEnter false])))
                && get_flag (conf_launch_on_missing (_get_app_config apps class_name))).
      * cbn [commands]. constructor; [reflexivity|].
        apply act_commands_not_hide. reflexivity.
      * cbn [commands]. apply act_commands_not_hide. reflexivity.
    + cbn [commands]. apply act_commands_not_hide. reflexivity.
Qed.

(** Scenario E: a window in workspace 1 is focused, not hidden, although
    its entry sets no [focus]. *)
Lemma show_never_hides_witness :
  Forall (fun c => is_hide c = false)
         (commands (snd (run (static_world [foo_client workspace_1 false] 1)
                             (run_show ∅ 2 "foo") []))).
Proof.
  apply (show_never_hides ∅ 2 (static_world [foo_client workspace_1 false] 1)
           [] "foo").
  lia.
Defined.

(** X7.  The focus entry point, called with a class name, sends exactly one
    command after one read of the client list: the move to the active
    workspace when the list shows the class in the scratchpad, the focus
    command otherwise.  It never launches and returns no error. *)
Theorem focus_entry_point (w : World) (h : list Event) (args : string) :
  PyStr.strip args <> "" ->
  let class_name := PyStr.strip args in
  exists tr,
    run w (run_focus args) h = (Some None, tr)
    /\ commands tr
       = [if in_scratchpad class_name (clients_at w h)
          then "movetoworkspace "
               +:+ PyStr.of_int (ws_id (activeworkspace_at w (h ++ [EvGetClients])))
               +:+ ",class:" +:+ class_name
          else "focuswindow class:" +:+ class_name]
    /\ client_queries tr = 1
    /\ count_exec tr = 0.
Proof.
  intros Hne. cbv zeta. unfold run_focus.
  destruct (PyStr.strip args) as [|a cn] eqn:Hs; [congruence|].
  cbn [PyStr.is_empty]. rewrite run_bind, run_is_window_in_hdrop.
  destruct (in_scratchpad (String a cn) (clients_at w h)); eexists;
    (split; [reflexivity|]); repeat split; reflexivity.
Qed.

(** Focusing a window that sits in the scratchpad. *)
Lemma focus_entry_point_witness :
  exists tr,
    run (static_world [foo_client scratchpad false] 3) (run_focus " foo ") []
    = (Some None, tr)
    /\ commands tr = ["movetoworkspace 3,class:foo"]
    /\ client_queries tr = 1
    /\ count_exec tr = 0.
Proof.
  apply (focus_entry_point (static_world [foo_client scratchpad false] 3) [] " foo ").
  discriminate.
Defined.

(** ** hdrop: the argument string of the entry points *)

Lemma append_cons (a : ascii) (p s : string) : String a p +:+ s = String a (p +:+ s).
Proof. reflexivity. Qed.

Lemma append_empty (s : string) : "" +:+ s = s.
Proof. reflexivity. Qed.

Lemma lstrip_all_space (lead s : string) :
  all_space lead = true -> PyStr.lstrip (lead +:+ s) = PyStr.lstrip s.
Proof.
  induction lead as [|c lead IH]; [reflexivity|].
  cbn [all_space]. intros Hc. apply andb_prop in Hc. destruct Hc as [Hc Hl].
  rewrite append_cons. cbn [PyStr.lstrip]. rewrite Hc. exact (IH Hl).
Qed.

Lemma span_token_token (tok tail : string) :
  no_space tok = true ->
  starts_blank tail = true ->
  PyStr.span_token (tok +:+ tail) = (tok, tail).
Proof.
  intros Ht Hb. induction tok as [|c tok IH].
  - rewrite append_empty. destruct tail as [|c r]; [reflexivity|].
    cbn [starts_blank] in Hb. cbn [PyStr.span_token]. rewrite Hb. reflexivity.
  - cbn [no_space] in Ht. apply andb_prop in Ht. destruct Ht as [Hc Ht].
    apply negb_true_iff in Hc.
    rewrite append_cons. cbn [PyStr.span_token]. rewrite Hc, (IH Ht). reflexivity.
Qed.

Lemma rstrip_token (tok tail : string) :
  no_space tok = true ->
  PyStr.rstrip (tok +:+ tail) = tok +:+ PyStr.rstrip tail.
Proof.
  intros Ht. induction tok as [|c tok IH]; [reflexivity|].
  cbn [no_space] in Ht. apply andb_prop in Ht. destruct Ht as [Hc Ht].
  apply negb_true_iff in Hc.
  rewrite !append_cons, (rstrip_keeps_head c _ Hc), (IH Ht). reflexivity.
Qed.

Lemma rstrip_starts_blank (tail : string) :
  starts_blank tail = true -> starts_blank (PyStr.rstrip tail) = true.
Proof.
  destruct tail as [|c r]; [reflexivity|].
  cbn [starts_blank PyStr.rstrip]. intros Hc.
  destruct (PyStr.is_empty (PyStr.rstrip r) && PyStr.isspace c);
    [reflexivity | exact Hc].
Qed.

(** The split of a token followed by nothing or by whitespace and more. *)
Lemma split_none_1_token (tok tail : string) :
  is_token tok = true ->
  starts_blank tail = true ->
  exists rest, PyStr.split_none_1 (tok +:+ tail) = tok :: rest
               /\ (tail = "" -> rest = []).
Proof.
  unfold is_token. intros Ht Hb. apply andb_prop in Ht. destruct Ht as [Hne Hns].
  destruct tok as [|c tok]; [discriminate Hne|].
  pose proof Hns as Hns'. cbn [no_space] in Hns'.
  apply andb_prop in Hns'. destruct Hns' as [Hc _]. apply negb_true_iff in Hc.
  unfold PyStr.split_none_1.
  assert (Hl : PyStr.lstrip (String c tok +:+ tail) = String c tok +:+ tail).
  { rewrite append_cons. cbn [PyStr.lstrip]. rewrite Hc. reflexivity. }
  rewrite Hl. rewrite (span_token_token (String c tok) tail Hns Hb).
  rewrite append_cons. cbn [PyStr.is_empty].
  destruct (PyStr.is_empty (PyStr.lstrip tail)) eqn:He.
  - exists []. split; reflexivity.
  - eexists. split; [reflexivity|]. intros ->. discriminate He.
Qed.

Lemma strip_token (lead tok tail : string) :
  all_space lead = true ->
  is_token tok = true ->
  PyStr.strip (lead +:+ tok +:+ tail) = tok +:+ PyStr.rstrip tail.
Proof.
  unfold is_token. intros Hl Ht. apply andb_prop in Ht. destruct Ht as [Hne Hns].
  unfold PyStr.strip. rewrite (lstrip_all_space lead _ Hl).
  destruct tok as [|c tok]; [discriminate Hne|].
  pose proof Hns as Hns'. cbn [no_space] in Hns'.
  apply andb_prop in Hns'. destruct Hns' as [Hc _]. apply negb_true_iff in Hc.
  assert (Hls : PyStr.lstrip (String c tok +:+ tail) = String c tok +:+ tail).
  { rewrite append_cons. cbn [PyStr.lstrip]. rewrite Hc. reflexivity. }
  rewrite Hls. apply rstrip_token. exact Hns.
Qed.

(** X8.  The primary entry point acts on the first token of its argument alone:
    whitespace before it and whatever follows it after whitespace are
    dropped, and the call is [run_app] on that token. *)
Theorem run_hdrop_first_token (apps : gmap string AppConf) (fuel : nat)
    (lead tok tail : string) :
  all_space lead = true ->
  is_token tok = true ->
  starts_blank tail = true ->
  run_hdrop apps fuel (lead +:+ tok +:+ tail) = run_app apps fuel tok.
Proof.
  intros Hl Ht Hb. unfold run_hdrop.
  rewrite (strip_token lead tok tail Hl Ht).
  destruct (split_none_1_token tok (PyStr.rstrip tail) Ht
              (rstrip_starts_blank tail Hb)) as [rest [Hsp _]].
  rewrite Hsp. cbn [hd].
  assert (Htok : PyStr.is_empty tok = false).
  { unfold is_token in Ht. apply andb_prop in Ht. destruct Ht as [Hne _].
    apply negb_true_iff in Hne. exact Hne. }
  assert (Hargs : PyStr.is_empty (lead +:+ tok +:+ tail) = false).
  { destruct lead as [|c lead]; [|reflexivity].
    rewrite append_empty. destruct tok; [discriminate Htok | reflexivity]. }
  assert (Hst : PyStr.is_empty (tok +:+ PyStr.rstrip tail) = false).
  { destruct tok; [discriminate Htok | reflexivity]. }
  rewrite Hargs, Hst. cbn [negb andb]. rewrite Htok. reflexivity.
Qed.

Lemma run_hdrop_first_token_witness :
  run_hdrop kitty_apps 2 ("  " +:+ "kitty" +:+ " --floating now ")
  = run_app kitty_apps 2 "kitty".
Proof.
  apply (run_hdrop_first_token kitty_apps 2 "  " "kitty" " --floating now ");
    reflexivity.
Defined.

(** X9.  The toggle and show entry points read the class from the first token of
    their argument and ignore the rest: options on the command line change
    nothing. *)
Theorem toggle_show_ignore_options (apps : gmap string AppConf) (fuel : nat)
    (lead tok tail : string) :
  all_space lead = true ->
  is_token tok = true ->
  starts_blank tail = true ->
  run_toggle apps fuel (lead +:+ tok +:+ tail) = run_toggle apps fuel tok
  /\ run_show apps fuel (lead +:+ tok +:+ tail) = run_show apps fuel tok.
Proof.
  intros Hl Ht Hb.
  assert (Hsplit : forall t, starts_blank t = true ->
            exists rest, PyStr.split_none_1 (lead +:+ tok +:+ t) = tok :: rest).
  { intros t Hbt. destruct (split_none_1_token tok t Ht Hbt) as [rest [Hsp _]].
    exists rest. unfold PyStr.split_none_1 in *.
    rewrite (lstrip_all_space lead _ Hl). exact Hsp. }
  destruct (Hsplit tail Hb) as [rest Hsp].
  destruct (split_none_1_token tok "" Ht eq_refl) as [rest0 [Hsp0 _]].
  assert (Htok : tok +:+ "" = tok).
  { clear. induction tok as [|c tok IH]; [reflexivity|].
    rewrite append_cons, IH. reflexivity. }
  rewrite Htok in Hsp0.
  unfold run_toggle, run_show. rewrite Hsp, Hsp0. split; reflexivity.
Qed.

Lemma toggle_show_ignore_options_witness :
  run_toggle kitty_apps 2 (" " +:+ "kitty" +:+ " --focus --height 400")
  = run_toggle kitty_apps 2 "kitty"
  /\ run_show kitty_apps 2 (" " +:+ "kitty" +:+ " --focus --height 400")
     = run_show kitty_apps 2 "kitty".
Proof.
  apply (toggle_show_ignore_options kitty_apps 2 " " "kitty" " --focus --height 400");
    reflexivity.
Defined.

(** X10.  For an application whose entry sets no [class], the primary entry point
    and the toggle entry point are the same program. *)
Theorem run_app_is_toggle_without_class (apps : gmap string AppConf)
    (fuel : nat) (app_name : string) (conf : AppConf) :
  apps !! app_name = Some conf ->
  conf_is_empty conf = false ->
  conf_class conf = None ->
  is_token app_name = true ->
  run_app apps fuel app_name = run_toggle apps fuel app_name.
Proof.
  intros Hlook Hne Hcl Ht.
  destruct (split_none_1_token app_name "" Ht eq_refl) as [rest [Hsp _]].
  assert (Happ : app_name +:+ "" = app_name).
  { clear. induction app_name as [|c s IH]; [reflexivity|].
    rewrite append_cons, IH. reflexivity. }
  rewrite Happ in Hsp.
  unfold run_app, run_toggle, _get_app_config.
  rewrite Hsp, Hlook, Hne, Hcl. reflexivity.
Qed.

(** The application [kitty], and the application [foo] whose entry holds
    only a key the plugin does not read. *)
Lemma run_app_is_toggle_without_class_witness :
  run_app kitty_apps 2 "kitty" = run_toggle kitty_apps 2 "kitty"
  /\ run_app foo_apps 2 "foo" = run_toggle foo_apps 2 "foo".
Proof.
  split.
  - apply (run_app_is_toggle_without_class kitty_apps 2 "kitty"
             {| conf_class := None; conf_command := Some "kitty";
                conf_focus := Some true; conf_floating := None;
                conf_center := None; conf_height := None;
                conf_width := None; conf_launch_on_missing := Some true;
                conf_other_keys := [] |});
      reflexivity.
  - apply (run_app_is_toggle_without_class foo_apps 2 "foo" opacity_only);
      reflexivity.
Defined.

(** An entry with only unread keys is configured: [run_app] goes on to the
    decision and hides the window found in workspace 1. *)
Lemma run_app_entry_with_unread_keys :
  run (static_world [foo_client workspace_1 false] 1) (run_app foo_apps 2 "foo") []
  = (Some None,
     [EvEnter false; EvGetClients; EvGetClients;
      EvExecute "movetoworkspacesilent special:hdrop,class:foo"]).
Proof. reflexivity. Qed.


Lemma rstrip_idempotent (s : string) : PyStr.rstrip (PyStr.rstrip s) = PyStr.rstrip s.
Proof.
  induction s as [|c r IH]; [reflexivity|].
  cbn [PyStr.rstrip].
  destruct (PyStr.is_empty (PyStr.rstrip r) && PyStr.isspace c) eqn:Hc;
    [reflexivity|].
  cbn [PyStr.rstrip]. rewrite IH, Hc. reflexivity.
Qed.

Lemma strip_idempotent (s : string) : PyStr.strip (PyStr.strip s) = PyStr.strip s.
Proof.
  destruct (PyStr.blank s) eqn:Hb.
  - rewrite (blank_strip s Hb). reflexivity.
  - destruct (lstrip_not_blank s Hb) as [c [r [Hl Hc]]].
    unfold PyStr.strip at 2 3. rewrite Hl, (rstrip_keeps_head c r Hc).
    unfold PyStr.strip. cbn [PyStr.lstrip]. rewrite Hc.
    rewrite (rstrip_keeps_head c _ Hc), rstrip_idempotent. reflexivity.
Qed.

(** X11.  The hide and focus entry points take their whole argument, stripped of
    the whitespace around it, as the class: stripping the argument
    beforehand changes nothing, and words after the first are part of the
    class, not options. *)
Theorem hide_focus_class_is_stripped_argument (w : World) (h : list Event)
    (args : string) :
  run_hide (PyStr.strip args) = run_hide args
  /\ run_focus (PyStr.strip args) = run_focus args
  /\ (PyStr.strip args <> "" ->
      commands (snd (run w (run_hide args) h))
      = if exists_in (PyStr.strip args) (clients_at w h)
        then ["movetoworkspacesilent special:hdrop,class:" +:+ PyStr.strip args]
        else []).
Proof.
  split; [|split].
  - unfold run_hide. rewrite strip_idempotent. reflexivity.
  - unfold run_focus. rewrite strip_idempotent. reflexivity.
  - intros Hne. unfold run_hide.
    destruct (PyStr.strip args) as [|a cn]; [congruence|].
    cbn [PyStr.is_empty]. rewrite run_bind, run_is_window_exists.
    destruct (exists_in (String a cn) (clients_at w h)); reflexivity.
Qed.

(** [hide] with two words: the class searched is [foo --now], which the
    window of class [foo] does not have. *)
Lemma hide_focus_class_is_stripped_argument_witness :
  commands (snd (run (static_world [foo_client workspace_1 false] 1)
                     (run_hide " foo --now ") []))
  = [].
Proof.
  destruct (hide_focus_class_is_stripped_argument
              (static_world [foo_client workspace_1 false] 1) [] " foo --now ")
    as [_ [_ Hcmds]].
  apply Hcmds. discriminate.
Defined.

(** ** The configuration section name *)

Lemma conf_name_no_colon (name : string) :
  contains_colon name = false -> _conf_name name = name.
Proof. unfold _conf_name. intros ->. reflexivity. Qed.

Lemma split_colon_1_prefix (p rest : string) :
  contains_colon p = false ->
  split_colon_1 (p +:+ String ":" rest) = [p; rest].
Proof.
  induction p as [|c p IH]; intros Hp.
  - reflexivity.
  - cbn [contains_colon] in Hp. apply orb_false_elim in Hp. destruct Hp as [Hc Hp].
    rewrite append_cons. cbn [split_colon_1]. rewrite Hc, (IH Hp). reflexivity.
Qed.

Lemma contains_colon_append (p rest : string) :
  contains_colon (p +:+ String ":" rest) = true.
Proof.
  induction p as [|c p IH]; [reflexivity|].
  rewrite append_cons. cbn [contains_colon]. rewrite IH. apply orb_true_r.
Qed.

(** X12.  A plugin loaded under a name with a colon, as [external:hdrop], reads
    the section named by what follows the first colon; later colons stay in
    the section name.  A name without colon is the section name itself. *)
Theorem conf_name_after_first_colon (p rest name : string) :
  (contains_colon p = false -> _conf_name (p +:+ String ":" rest) = rest)
  /\ (contains_colon name = false -> _conf_name name = name).
Proof.
  split.
  - intros Hp. unfold _conf_name.
    rewrite contains_colon_append, (split_colon_1_prefix p rest Hp). reflexivity.
  - apply conf_name_no_colon.
Qed.

Lemma conf_name_after_first_colon_witness :
  _conf_name ("external" +:+ String ":" "hdrop") = "hdrop"
  /\ _conf_name ("a" +:+ String ":" "b:c") = "b:c"
  /\ _conf_name "fcitx5_switcher" = "fcitx5_switcher".
Proof.
  destruct (conf_name_after_first_colon "external" "hdrop" "fcitx5_switcher")
    as [Hext Hplain].
  destruct (conf_name_after_first_colon "a" "b:c" "fcitx5_switcher") as [Hab _].
  split; [apply Hext; reflexivity|].
  split; [apply Hab; reflexivity | apply Hplain; reflexivity].
Defined.


(** * fcitx5_switcher *)

Section SwitcherProperties.

Variable re_search : string -> string -> Fcitx5.SearchResult.

(** ** The pattern search *)

Lemma matches_any_no_raise (value : string) (patterns : list string) :
  forallb (fun p => negb (pattern_raises re_search value p)) patterns = true ->
  Fcitx5.matches_any re_search value patterns
  = Fcitx5.Value (matches_some re_search value patterns).
Proof.
  unfold matches_some. induction patterns as [|p ps IH]; [reflexivity|].
  cbn [forallb Fcitx5.matches_any existsb]. intros Hall.
  apply andb_prop in Hall. destruct Hall as [Hp Hps].
  unfold pattern_raises in Hp. unfold pattern_matches at 1.
  destruct (re_search p value); cbn [orb].
  - reflexivity.
  - exact (IH Hps).
  - destruct (String.eqb value p); [reflexivity | exact (IH Hps)].
  - discriminate Hp.
Qed.

(** X13.  The search through a pattern list returns [True] exactly when some
    pattern matches the value -- found by the engine, or malformed for it
    with [re.error] and equal to the value -- and no pattern before it
    raises another exception; it raises an exception exactly when a pattern
    raises it and no pattern before matches or raises.  So [re.error] never
    stops the search through the remaining patterns, and any other
    exception of a pattern tried before the first match does. *)
Theorem matches_any_first_outcome (value : string) (patterns : list string) :
  (Fcitx5.matches_any re_search value patterns = Fcitx5.Value true
   <-> exists pre p post,
         patterns = pre ++ p :: post
         /\ pattern_matches re_search value p = true
         /\ Forall (fun q => pattern_raises re_search value q = false) pre)
  /\ (forall exc,
        Fcitx5.matches_any re_search value patterns = Fcitx5.Raise exc
        <-> exists pre p post,
              patterns = pre ++ p :: post
              /\ re_search p value = Fcitx5.Raises exc
              /\ Forall (fun q => pattern_matches re_search value q = false
                                  /\ pattern_raises re_search value q = false) pre).
Proof.
  split; [|intros exc]; split.
  - induction patterns as [|p ps IH]; [discriminate|].
    cbn [Fcitx5.matches_any]. destruct (re_search p value) eqn:Hr.
    + intros _. exists [], p, ps. split; [reflexivity|].
      unfold pattern_matches. rewrite Hr. split; [reflexivity | constructor].
    + intros Hm. destruct (IH Hm) as [pre [q [post [-> [Hq Hpre]]]]].
      exists (p :: pre), q, post. split; [reflexivity|]. split; [exact Hq|].
      constructor; [|exact Hpre]. unfold pattern_raises. rewrite Hr. reflexivity.
    + destruct (String.eqb value p) eqn:He.
      * intros _. exists [], p, ps. split; [reflexivity|].
        unfold pattern_matches. rewrite Hr. split; [exact He | constructor].
      * intros Hm. destruct (IH Hm) as [pre [q [post [-> [Hq Hpre]]]]].
        exists (p :: pre), q, post. split; [reflexivity|]. split; [exact Hq|].
        constructor; [|exact Hpre]. unfold pattern_raises. rewrite Hr. reflexivity.
    + discriminate.
  - intros [pre [p [post [-> [Hp Hpre]]]]].
    induction Hpre as [|q pre Hq _ IH].
    + cbn [app Fcitx5.matches_any]. unfold pattern_matches in Hp.
      destruct (re_search p value); try discriminate Hp; [reflexivity|].
      rewrite Hp. reflexivity.
    + cbn [app Fcitx5.matches_any]. unfold pattern_raises in Hq.
      destruct (re_search q value); try discriminate Hq;
        [reflexivity | exact IH |].
      destruct (String.eqb value q); [reflexivity | exact IH].
  - induction patterns as [|p ps IH]; [discriminate|].
    cbn [Fcitx5.matches_any]. destruct (re_search p value) eqn:Hr.
    + discriminate.
    + intros Hm. destruct (IH Hm) as [pre [q [post [-> [Hq Hpre]]]]].
      exists (p :: pre), q, post. split; [reflexivity|]. split; [exact Hq|].
      constructor; [|exact Hpre].
      unfold pattern_matches, pattern_raises. rewrite Hr. split; reflexivity.
    + destruct (String.eqb value p) eqn:He; [discriminate|].
      intros Hm. destruct (IH Hm) as [pre [q [post [-> [Hq Hpre]]]]].
      exists (p :: pre), q, post. split; [reflexivity|]. split; [exact Hq|].
      constructor; [|exact Hpre].
      unfold pattern_matches, pattern_raises. rewrite Hr. split; [exact He | reflexivity].
    + intros Hm. injection Hm as ->. exists [], p, ps.
      split; [reflexivity|]. split; [exact Hr | constructor].
  - intros [pre [p [post [-> [Hp Hpre]]]]].
    induction Hpre as [|q pre [Hqm Hqr] _ IH].
    + cbn [app Fcitx5.matches_any]. rewrite Hp. reflexivity.
    + cbn [app Fcitx5.matches_any]. unfold pattern_matches in Hqm.
      unfold pattern_raises in Hqr.
      destruct (re_search q value); try discriminate; [exact IH|].
      rewrite Hqm. exact IH.
Qed.

Lemma tests_no_raise (cfg : Fcitx5.Config) (client : Client) :
  no_pattern_raises re_search cfg client = true ->
  Fcitx5.should_enable re_search cfg client
  = Fcitx5.Value (matches_active re_search cfg client)
  /\ Fcitx5.should_disable re_search cfg client
     = Fcitx5.Value (matches_inactive re_search cfg client).
Proof.
  unfold no_pattern_raises. intros Hall.
  apply andb_prop in Hall. destruct Hall as [Hall Hit].
  apply andb_prop in Hall. destruct Hall as [Hall Hic].
  apply andb_prop in Hall. destruct Hall as [Hac Hat].
  unfold Fcitx5.should_enable, Fcitx5.should_disable, matches_active,
    matches_inactive.
  rewrite !matches_any_no_raise by assumption.
  split; unfold Fcitx5.or_else.
  - destruct (matches_some re_search (c_class client) (Fcitx5.active_classes cfg));
      reflexivity.
  - destruct (matches_some re_search (c_class client) (Fcitx5.inactive_classes cfg));
      reflexivity.
Qed.

(** ** The handler *)

Lemma run_switch_for (w : World) (cfg : Fcitx5.Config) (client : Client)
    (h : list Event) :
  run w (Fcitx5.switch_for re_search cfg client) h
  = (Some (fst (switch_outcome re_search cfg client)),
     map EvExecute (snd (switch_outcome re_search cfg client))).
Proof.
  unfold Fcitx5.switch_for, switch_outcome.
  destruct (Fcitx5.should_enable re_search cfg client) as [[|]|exc];
    destruct (Fcitx5.should_disable re_search cfg client) as [[|]|exc'];
    reflexivity.
Qed.

Lemma switch_outcome_shape (cfg : Fcitx5.Config) (client : Client) :
  Forall (fun c => c = "execr fcitx5-remote -o" \/ c = "execr fcitx5-remote -c")
         (snd (switch_outcome re_search cfg client))
  /\ length (snd (switch_outcome re_search cfg client)) <= 2
  /\ (forall exc, fst (switch_outcome re_search cfg client) = Fcitx5.Raise exc ->
                  snd (switch_outcome re_search cfg client) = []).
Proof.
  unfold switch_outcome.
  destruct (Fcitx5.should_enable re_search cfg client) as [[|]|exc];
    destruct (Fcitx5.should_disable re_search cfg client) as [[|]|exc'];
    cbn [fst snd app length];
    (split;
     [repeat match goal with
             | |- Forall _ (_ :: _) =>
                 constructor; [first [left; reflexivity | right; reflexivity]|]
             | |- Forall _ [] => constructor
             end
     | split; [lia | intros e He; first [reflexivity | discriminate He]]]).
Qed.

(** The loop over the client list: only the two commands, at most two for
    each client with the address; nothing for no such client; the outcome
    of [switch_for] for one such client. *)
Lemma run_switch_loop (w : World) (cfg : Fcitx5.Config) (addr : string)
    (cs : list Client) :
  forall h,
    exists r cmds,
      run w (Fcitx5.for_each_raising cs (fun client =>
               if String.eqb (c_address client) addr
               then Fcitx5.switch_for re_search cfg client
               else Ret (Fcitx5.Value tt))) h
      = (Some r, map EvExecute cmds)
      /\ Forall (fun c => c = "execr fcitx5-remote -o" \/ c = "execr fcitx5-remote -c")
                cmds
      /\ length cmds
         <= 2 * length (List.filter (fun c => String.eqb (c_address c) addr) cs)
      /\ (List.filter (fun c => String.eqb (c_address c) addr) cs = [] ->
          r = Fcitx5.Value tt /\ cmds = [])
      /\ (forall client,
            List.filter (fun c => String.eqb (c_address c) addr) cs = [client] ->
            r = fst (switch_outcome re_search cfg client)
            /\ cmds = snd (switch_outcome re_search cfg client)).
Proof.
  induction cs as [|c cs IH]; intros h.
  - exists (Fcitx5.Value tt), []. split; [reflexivity|].
    split; [constructor|]. split; [simpl; lia|].
    split; [intros _; split; reflexivity | intros client Hf; discriminate Hf].
  - cbn [Fcitx5.for_each_raising List.filter]. rewrite run_bind.
    destruct (String.eqb (c_address c) addr).
    + rewrite run_switch_for.
      destruct (switch_outcome_shape cfg c) as [HF [HL HR]].
      destruct (switch_outcome re_search cfg c) as [[[]|exc] cmds0] eqn:Ho;
        cbn [fst snd] in *.
      * destruct (IH (h ++ map EvExecute cmds0)) as [r [cmds [Hrun [HF' [HL' [Hn Hu]]]]]].
        rewrite Hrun. exists r, (cmds0 ++ cmds).
        split; [rewrite map_app; reflexivity|].
        split; [apply Forall_app; split; assumption|].
        split; [rewrite length_app; cbn [length]; lia|].
        split; [intros Hf; discriminate Hf|].
        intros client Hf. injection Hf as <- Hnil.
        destruct (Hn Hnil) as [-> ->]. rewrite Ho, app_nil_r. split; reflexivity.
      * rewrite (HR exc eq_refl). cbn [map app run].
        exists (Fcitx5.Raise exc), []. split; [reflexivity|].
        split; [constructor|]. split; [simpl; lia|].
        split; [intros Hf; discriminate Hf|].
        intros client Hf. injection Hf as <- Hnil. rewrite Ho.
        rewrite (HR exc eq_refl). split; reflexivity.
    + cbn [run app]. rewrite app_nil_r.
      destruct (IH h) as [r [cmds [Hrun [HF' [HL' [Hn Hu]]]]]].
      rewrite Hrun. exists r, cmds. repeat split; try assumption.
      * exact (proj1 (Hn H)).
      * exact (proj2 (Hn H)).
      * exact (proj1 (Hu client H)).
      * exact (proj2 (Hu client H)).
Qed.

(** The whole handler, from its loop. *)
Lemma run_event_activewindowv2 (w : World) (h : list Event)
    (cfg : Fcitx5.Config) (addr : string) :
  exists r cmds,
    run w (Fcitx5.event_activewindowv2 re_search cfg addr) h
    = (Some r, EvGetClients :: map EvExecute cmds)
    /\ Forall (fun c => c = "execr fcitx5-remote -o" \/ c = "execr fcitx5-remote -c")
              cmds
    /\ length cmds
       <= 2 * length (List.filter
                        (fun c => String.eqb (c_address c) ("0x" +:+ addr))
                        (clients_at w h))
    /\ (List.filter (fun c => String.eqb (c_address c) ("0x" +:+ addr))
                    (clients_at w h) = [] ->
        r = Fcitx5.Value tt /\ cmds = [])
    /\ (forall client,
          List.filter (fun c => String.eqb (c_address c) ("0x" +:+ addr))
                      (clients_at w h) = [client] ->
          r = fst (switch_outcome re_search cfg client)
          /\ cmds = snd (switch_outcome re_search cfg client)).
Proof.
  unfold Fcitx5.event_activewindowv2. rewrite run_bind. cbn [get_clients run].
  destruct (run_switch_loop w cfg ("0x" +:+ addr) (clients_at w h)
              (h ++ [EvGetClients])) as [r [cmds [Hrun Hrest]]].
  rewrite Hrun. exists r, cmds. split; [reflexivity | exact Hrest].
Qed.

(** X14.  An event for an address that no client of the list has sends
    nothing, whatever the configuration, and returns. *)
Theorem switcher_unknown_address (w : World) (h : list Event)
    (cfg : Fcitx5.Config) (addr : string) :
  List.filter (fun c => String.eqb (c_address c) ("0x" +:+ addr)) (clients_at w h)
  = [] ->
  run w (Fcitx5.event_activewindowv2 re_search cfg addr) h
  = (Some (Fcitx5.Value tt), [EvGetClients]).
Proof.
  intros Hnone.
  destruct (run_event_activewindowv2 w h cfg addr)
    as [r [cmds [Hrun [_ [_ [Hn _]]]]]].
  destruct (Hn Hnone) as [-> ->]. exact Hrun.
Qed.

Lemma run_switch_loop_empty_config (w : World) (addr : string) (cs : list Client) :
  forall h,
    run w (Fcitx5.for_each_raising cs (fun client =>
             if String.eqb (c_address client) addr
             then Fcitx5.switch_for re_search
                    {| Fcitx5.active_classes := []; Fcitx5.active_titles := [];
                       Fcitx5.inactive_classes := [];
                       Fcitx5.inactive_titles := [] |} client
             else Ret (Fcitx5.Value tt))) h
    = (Some (Fcitx5.Value tt), []).
Proof.
  induction cs as [|c cs IH]; intros h; [reflexivity|].
  cbn [Fcitx5.for_each_raising]. rewrite run_bind.
  destruct (String.eqb (c_address c) addr).
  - rewrite run_switch_for.
    change (switch_outcome re_search
              {| Fcitx5.active_classes := []; Fcitx5.active_titles := [];
                 Fcitx5.inactive_classes := []; Fcitx5.inactive_titles := [] |} c)
      with (@Fcitx5.Value unit tt, @nil string).
    cbn [fst snd map app]. rewrite IH. reflexivity.
  - cbn [run app]. rewrite IH. reflexivity.
Qed.

(** X15.  With the four pattern lists empty, the default, no event sends a
    command. *)
Theorem switcher_empty_config (w : World) (h : list Event) (addr : string) :
  commands (snd (run w (Fcitx5.event_activewindowv2 re_search
                          {| Fcitx5.active_classes := []; Fcitx5.active_titles := [];
                             Fcitx5.inactive_classes := [];
                             Fcitx5.inactive_titles := [] |} addr) h))
  = [].
Proof.
  unfold Fcitx5.event_activewindowv2.
  rewrite run_bind. cbn [get_clients run].
  rewrite run_switch_loop_empty_config. reflexivity.
Qed.

(** X16.  The handler reads the client list once and sends nothing but the two
    [fcitx5-remote] commands, at most two for each client that has the
    event's address. *)
Theorem switcher_sends_only_remote_commands (w : World) (h : list Event)
    (cfg : Fcitx5.Config) (addr : string) :
  let tr := snd (run w (Fcitx5.event_activewindowv2 re_search cfg addr) h) in
  client_queries tr = 1
  /\ Forall (fun c => c = "execr fcitx5-remote -o" \/ c = "execr fcitx5-remote -c")
            (commands tr)
  /\ length (commands tr)
     <= 2 * length (List.filter
                      (fun c => String.eqb (c_address c) ("0x" +:+ addr))
                      (clients_at w h)).
Proof.
  cbv zeta.
  destruct (run_event_activewindowv2 w h cfg addr)
    as [r [cmds [Hrun [HF [HL _]]]]].
  rewrite Hrun. cbn [snd client_queries commands].
  rewrite client_queries_map_execute, commands_map_execute.
  split; [reflexivity|]. split; [exact HF | exact HL].
Qed.

(** X17.  For the one client with the event's address, when no pattern
    raises an exception other than [re.error], the handler returns and the
    two tests act independently: the enable command is sent exactly when
    the window matches an active pattern, and after it the disable command
    exactly when the window matches an inactive pattern. *)
Theorem switcher_single_window (w : World) (h : list Event)
    (cfg : Fcitx5.Config) (addr : string) (client : Client) :
  List.filter (fun c => String.eqb (c_address c) ("0x" +:+ addr)) (clients_at w h)
  = [client] ->
  no_pattern_raises re_search cfg client = true ->
  run w (Fcitx5.event_activewindowv2 re_search cfg addr) h
  = (Some (Fcitx5.Value tt),
     EvGetClients ::
     map EvExecute
       ((if matches_active re_search cfg client
         then ["execr fcitx5-remote -o"] else [])
        ++ (if matches_inactive re_search cfg client
            then ["execr fcitx5-remote -c"] else []))).
Proof.
  intros Hone Hno.
  destruct (run_event_activewindowv2 w h cfg addr)
    as [r [cmds [Hrun [_ [_ [_ Hu]]]]]].
  destruct (Hu client Hone) as [-> ->]. rewrite Hrun.
  unfold switch_outcome.
  destruct (tests_no_raise cfg client Hno) as [-> ->]. reflexivity.
Qed.

(** X18.  For the one client with the event's address the handler sends its
    commands only after both tests: when it raises, it has sent nothing,
    also when the window matches an active pattern. *)
Theorem switcher_exception_sends_nothing (w : World) (h : list Event)
    (cfg : Fcitx5.Config) (addr : string) (client : Client) (exc : string) :
  List.filter (fun c => String.eqb (c_address c) ("0x" +:+ addr)) (clients_at w h)
  = [client] ->
  fst (run w (Fcitx5.event_activewindowv2 re_search cfg addr) h)
  = Some (Fcitx5.Raise exc) ->
  commands (snd (run w (Fcitx5.event_activewindowv2 re_search cfg addr) h)) = [].
Proof.
  intros Hone.
  destruct (run_event_activewindowv2 w h cfg addr)
    as [r [cmds [Hrun [_ [_ [_ Hu]]]]]].
  destruct (Hu client Hone) as [-> ->]. rewrite Hrun. cbn [fst snd commands].
  intros Hr. injection Hr as Hr.
  destruct (switch_outcome_shape cfg client) as [_ [_ HR]].
  rewrite (HR exc Hr). reflexivity.
Qed.

End SwitcherProperties.

(** C10.  The claim fails on the code for a pattern that makes [re.search]
    raise an exception other than [re.error]: with the active class patterns
    [a{4294967296}] and [firefox] and the inactive class pattern [fire], the
    [firefox] window matches an active and an inactive pattern, yet the
    handler raises [OverflowError] from the first pattern and sends neither
    command. *)
Theorem switcher_overflow_pattern_sends_nothing :
  matches_active Fcitx5.overflow_search overflow_config firefox_client = true
  /\ matches_inactive Fcitx5.overflow_search overflow_config firefox_client = true
  /\ run (static_world [kitty_client; firefox_client] 1)
         (Fcitx5.event_activewindowv2 Fcitx5.overflow_search overflow_config "1f")
         []
     = (Some (Fcitx5.Raise "OverflowError"), [EvGetClients]).
Proof. repeat split; vm_compute; reflexivity. Qed.

(** An event for an address that is not in the list. *)
Lemma switcher_unknown_address_witness :
  run (static_world [kitty_client; firefox_client] 1)
      (Fcitx5.event_activewindowv2 Fcitx5.literal_search both_config "dead") []
  = (Some (Fcitx5.Value tt), [EvGetClients]).
Proof.
  apply (switcher_unknown_address Fcitx5.literal_search
           (static_world [kitty_client; firefox_client] 1) [] both_config "dead").
  reflexivity.
Defined.

(** The [firefox] window matches the active pattern [firefox] and the
    inactive pattern [fire]: enable, then disable.  A window of class
    [campfire] matches the inactive pattern only: disable alone. *)
Lemma switcher_single_window_witness :
  run (static_world [kitty_client; firefox_client] 1)
      (Fcitx5.event_activewindowv2 Fcitx5.literal_search both_config "1f") []
  = (Some (Fcitx5.Value tt),
     [EvGetClients; EvExecute "execr fcitx5-remote -o";
      EvExecute "execr fcitx5-remote -c"])
  /\ run (static_world
            [kitty_client;
             {| c_address := "0x3c"; c_class := "campfire"; c_title := "logs";
                c_workspace := workspace_1; c_floating := false |}] 1)
         (Fcitx5.event_activewindowv2 Fcitx5.literal_search both_config "3c") []
     = (Some (Fcitx5.Value tt), [EvGetClients; EvExecute "execr fcitx5-remote -c"]).
Proof.
  split.
  - apply (switcher_single_window Fcitx5.literal_search
             (static_world [kitty_client; firefox_client] 1) [] both_config "1f"
             firefox_client); reflexivity.
  - apply (switcher_single_window Fcitx5.literal_search
             (static_world
                [kitty_client;
                 {| c_address := "0x3c"; c_class := "campfire"; c_title := "logs";
                    c_workspace := workspace_1; c_floating := false |}] 1)
             [] both_config "3c"
             {| c_address := "0x3c"; c_class := "campfire"; c_title := "logs";
                c_workspace := workspace_1; c_floating := false |});
      reflexivity.
Defined.

(** The overflow pattern ahead of [firefox]: the exception, and no command. *)
Lemma switcher_exception_sends_nothing_witness :
  commands
    (snd (run (static_world [kitty_client; firefox_client] 1)
              (Fcitx5.event_activewindowv2 Fcitx5.overflow_search overflow_config
                 "1f") []))
  = [].
Proof.
  apply (switcher_exception_sends_nothing Fcitx5.overflow_search
           (static_world [kitty_client; firefox_client] 1) [] overflow_config
           "1f" firefox_client "OverflowError"); reflexivity.
Defined.
